(** * ozp-backend: cache-aside model access and the notification feed

    A shallow embedding of [ozpcenter/model_access.py] (key normalisation,
    the storefront bundle and the metadata snapshot, both read through the
    shared cache) and of the notification engine that
    [ozpcenter/api/notification/tests/test_api_notification.py] exercises.

    Python strings are sequences of code points; the embedding covers the
    code points below 256 (ASCII and the Latin-1 supplement), one [ascii]
    per code point. *)

From Stdlib Require Import ZArith QArith Ascii String Sorting.Sorted Sorting.Permutation.
From stdpp Require Import gmap strings list fin_maps.

Local Open Scope list_scope.
Local Open Scope string_scope.

(** ** Characters: the classes used by [re] and [str.lower] *)

Module Chars.

Definition code (c : ascii) : N := N_of_ascii c.

Definition between (lo hi n : N) : bool := ((lo <=? n) && (n <=? hi))%N.

(** [str.isalnum] on one code point below 256: decimal digits, the ASCII
    letters, and the letters and numeric characters of the Latin-1
    supplement (feminine and masculine ordinal, micro sign, superscript
    digits, vulgar fractions, the accented letters). *)
Definition isalnum (c : ascii) : bool :=
  let n := code c in
  between 48 57 n || between 65 90 n || between 97 122 n
  || (n =? 170)%N || between 178 179 n || (n =? 181)%N
  || between 185 186 n || between 188 190 n
  || between 192 214 n || between 216 246 n || between 248 255 n.

(** The class [\w] of a [str] pattern: alphanumeric or the underscore. *)
Definition is_word (c : ascii) : bool := isalnum c || (code c =? 95)%N.

(** [str.lower] on one code point below 256. *)
Definition lower_char (c : ascii) : ascii :=
  let n := code c in
  if between 65 90 n || between 192 214 n || between 216 222 n
  then ascii_of_N (n + 32) else c.

End Chars.

(** ** Query-set operations shared by both parts *)

Module QuerySet.

(** [qs.order_by(field)]: ascending on the field.  Rows with equal keys keep
    the order of the underlying query. *)
Section OrderBy.
Context {A K : Type} (leb : K -> K -> bool) (field : A -> K).

Fixpoint insert_by (x : A) (l : list A) : list A :=
  match l with
  | [] => [x]
  | y :: l' => if leb (field x) (field y) then x :: l else y :: insert_by x l'
  end.

Definition order_by (l : list A) : list A := foldr insert_by [] l.

(** [x] may stand before [y] in a list ordered by the field. *)
Definition ascending (x y : A) : Prop := leb (field x) (field y) = true.

End OrderBy.

(** [qs[:n]] *)
Definition slice_to {A} (n : nat) (qs : list A) : list A := firstn n qs.

End QuerySet.

(** ** model_access.py *)

Module ModelAccess.

Import Chars QuerySet.

(** [re.sub(r'\W+', '', key)]: every maximal run of non-word characters is
    replaced by the empty string, so exactly the word characters stay. *)
Fixpoint re_sub_nonword (key : string) : string :=
  match key with
  | EmptyString => EmptyString
  | String c rest =>
      if is_word c then String c (re_sub_nonword rest) else re_sub_nonword rest
  end.

(** [str.lower]. *)
Fixpoint lower (s : string) : string :=
  match s with
  | EmptyString => EmptyString
  | String c rest => String (lower_char c) (lower rest)
  end.

Definition make_keysafe (key : string) : string := lower (re_sub_nonword key).

(** What the docstring of [make_keysafe] announces: lower case, and all
    characters that are not alphanumeric removed. *)
Fixpoint strip_non_alnum (s : string) : string :=
  match s with
  | EmptyString => EmptyString
  | String c rest =>
      if isalnum c then String c (strip_non_alnum rest) else strip_non_alnum rest
  end.

Definition documented_keysafe (key : string) : string := lower (strip_non_alnum key).

(** Every character of a string satisfies [p]. *)
Fixpoint string_forall (p : ascii -> bool) (s : string) : bool :=
  match s with
  | EmptyString => true
  | String c rest => p c && string_forall p rest
  end.

(** *** The catalog rows the module reads

    The models live in [ozpcenter/models.py], outside this module: the rows
    carry the fields that [model_access.py] touches, and the per-user
    visibility rule of [Listing.objects.for_user] is a field of the
    database. *)

(** Modelled from the spec: an organization (agency) row of [models.py],
    with the fields that [get_metadata] projects. *)
Record Agency := mkAgency {
  agency_title : string; agency_short_name : string; agency_icon_url : string }.

(** Modelled from the spec: the access-control (classification) level of an
    identity, a row of [models.py] with its title. *)
Record AccessControl := mkAccessControl { access_title : string }.

(** Modelled from the spec: the identity row of [models.py]: a username,
    the organization memberships and one access-control level. *)
Record Profile := mkProfile {
  profile_username : string;
  (** rows in the order in which [user.organizations.all()] yields them *)
  profile_organizations : list Agency;
  profile_access_control : AccessControl }.

(** Modelled from the spec: the listing row of [models.py], with the flag,
    the timestamp and the popularity score that [get_storefront] filters
    and orders on. *)
Record Listing := mkListing {
  listing_id : Z;
  is_featured : bool;
  approved_date : Z;
  avg_rate : Q }.

(** Modelled from the spec: the catalog rows of [models.py] that
    [get_metadata] projects, with the projected fields. *)
Record Category := mkCategory { category_title : string; category_description : string }.
Record ListingType := mkListingType { ltype_title : string; ltype_description : string }.
Record ContactType := mkContactType { contact_name : string; contact_required : bool }.
Record Intent := mkIntent {
  intent_action : string; intent_media_type : string;
  intent_label : string; intent_icon : string }.

(** The storage collaborator: its tables, and the visibility rule of
    [models.py] as a parameter. *)
Record Database := mkDatabase {
  Profile_objects : list Profile;
  (** [Listing.objects.for_user(username)] in the storage's default order *)
  Listing_for_user : string -> list Listing;
  Category_objects : list Category;
  ListingType_objects : list ListingType;
  Agency_objects : list Agency;
  ContactType_objects : list ContactType;
  Intent_objects : list Intent }.

(** *** Query-set operations *)

(** [qs.filter(is_featured=True)] *)
Definition filter_featured (qs : list Listing) : list Listing :=
  List.filter is_featured qs.

(** *** Values that travel through the cache and out of the module *)

Record Storefront := mkStorefront {
  featured : list Listing;
  recent : list Listing;
  most_popular : list Listing }.

Record Metadata := mkMetadata {
  categories : list (string * string);
  listing_types : list (string * string);
  agencies : list (string * string * string);
  contact_types : list (string * bool);
  intents : list (string * string * string * string) }.

(** The dictionaries the two functions build. *)
Inductive Value :=
| StorefrontData (d : Storefront)
| MetadataData (d : Metadata)
| ErrorData (msg : string).   (* {'error': True, 'msg': msg} *)

(** *** Exceptions, the world and the monad *)

Inductive exn :=
| DoesNotExist (msg : string)
| MultipleObjectsReturned (msg : string)
| Fault (msg : string).         (* any other [Exception] of a collaborator *)

(** [str(e)] *)
Definition str (e : exn) : string :=
  match e with
  | DoesNotExist m | MultipleObjectsReturned m | Fault m => m
  end.

(** One entry per call into a collaborator (storage or cache). *)
Inductive Event :=
| QProfile (username : string)
| QOrganizations (username : string)
| QAccessControl (username : string)
| QListings (username : string)
| QCategory | QListingType | QAgency | QContactType | QIntent
| CacheGet (key : string)
| CacheSet (key : string).

(** The world a request runs in.  [w_faults] decides, for the n-th call into
    a collaborator, whether it raises (and with which detail); [w_calls]
    counts the calls made so far and [w_trace] records them. *)
Record World := mkWorld {
  w_db : Database;
  w_cache : gmap string Value;
  w_faults : nat -> option string;
  w_calls : nat;
  w_trace : list Event }.

Inductive Outcome (A : Type) :=
| Returned (a : A)
| Raised (e : exn).
Arguments Returned {A} a.
Arguments Raised {A} e.

Definition M (A : Type) : Type := World -> Outcome A * World.

Definition ret {A} (a : A) : M A := fun w => (Returned a, w).

Definition raise {A} (e : exn) : M A := fun w => (Raised e, w).

Definition bind {A B} (m : M A) (k : A -> M B) : M B :=
  fun w => match m w with
           | (Returned a, w') => k a w'
           | (Raised e, w') => (Raised e, w')
           end.

(** [try: m  except Exception as e: h e] *)
Definition try_except {A} (m : M A) (h : exn -> M A) : M A :=
  fun w => match m w with
           | (Returned a, w') => (Returned a, w')
           | (Raised e, w') => h e w'
           end.

Declare Scope py_scope.
Delimit Scope py_scope with py.
Notation "x <- m ;; k" := (bind m (fun x => k))
  (at level 62, m at next level, right associativity) : py_scope.
Notation "m ;;; k" := (bind m (fun _ => k))
  (at level 62, right associativity) : py_scope.
Local Open Scope py_scope.

(** A call into a collaborator: it is counted and recorded, and it raises
    when the world schedules a fault for it. *)
Definition tick (ev : Event) (w : World) : World :=
  mkWorld (w_db w) (w_cache w) (w_faults w)
          (S (w_calls w)) (w_trace w ++ [ev])%list.

Definition invoke (ev : Event) : M unit :=
  fun w =>
    match w_faults w (w_calls w) with
    | Some detail => (Raised (Fault detail), tick ev w)
    | None => (Returned tt, tick ev w)
    end.

Definition read {A} (f : World -> A) : M A := fun w => (Returned (f w), w).

(** [models.Profile.objects.get(username=username)] *)
Definition Profile_objects_get (username : string) : M Profile :=
  invoke (QProfile username) ;;;
  rows <- read (fun w => List.filter (fun p => String.eqb (profile_username p) username)
                                     (Profile_objects (w_db w))) ;;
  match rows with
  | [] => raise (DoesNotExist "Profile matching query does not exist.")
  | [p] => ret p
  | _ => raise (MultipleObjectsReturned "get() returned more than one Profile")
  end.

(** [user.organizations.all()] *)
Definition organizations_all (user : Profile) : M (list Agency) :=
  invoke (QOrganizations (profile_username user)) ;;;
  ret (profile_organizations user).

(** [user.access_control] *)
Definition access_control (user : Profile) : M AccessControl :=
  invoke (QAccessControl (profile_username user)) ;;;
  ret (profile_access_control user).

(** [models.Listing.objects.for_user(username)], evaluated where the query
    set is built; Django evaluates it no later than [cache.set], still
    inside the [try] block. *)
Definition Listing_objects_for_user (username : string) : M (list Listing) :=
  invoke (QListings username) ;;;
  read (fun w => Listing_for_user (w_db w) username).

(** [Model.objects.all().values(...)], evaluated where it is built. *)
Definition objects_values {R T} (ev : Event) (table : Database -> list R)
    (project : R -> T) : M (list T) :=
  invoke ev ;;;
  read (fun w => List.map project (table (w_db w))).

(** [cache.get(key)] *)
Definition cache_get (key : string) : M (option Value) :=
  invoke (CacheGet key) ;;;
  read (fun w => w_cache w !! key).

Definition store (key : string) (data : Value) (w : World) : World :=
  mkWorld (w_db w) (<[key := data]> (w_cache w)) (w_faults w)
          (w_calls w) (w_trace w).

(** [cache.set(key, data)] *)
Definition cache_set (key : string) (data : Value) : M unit :=
  invoke (CacheSet key) ;;;
  fun w => (Returned tt, store key data w).

(** *** get_storefront *)

(** The loop [for i in ...: orgs += '%s_' % i.title]. *)
Definition join_titles (organizations : list Agency) : string :=
  fold_left (fun orgs i => orgs ++ (agency_title i ++ "_")) organizations "".

(** ['storefront:%s:%s' % (orgs_key, access_control_key)] *)
Definition storefront_key (organizations : list Agency) (ac : AccessControl) : string :=
  let orgs_key := make_keysafe (join_titles organizations) in
  let access_control_key := make_keysafe (access_title ac) in
  "storefront:" ++ orgs_key ++ ":" ++ access_control_key.

Definition get_storefront (username : string) : M Value :=
  user <- Profile_objects_get username ;;
  organizations <- organizations_all user ;;
  ac <- access_control user ;;
  let key := storefront_key organizations ac in
  data <- cache_get key ;;
  match data with
  | None =>
      try_except
        (visible1 <- Listing_objects_for_user username ;;
         let featured_listings := slice_to 12 (filter_featured visible1) in
         visible2 <- Listing_objects_for_user username ;;
         let recent_listings := slice_to 24 (order_by Z.leb approved_date visible2) in
         visible3 <- Listing_objects_for_user username ;;
         let most_popular_listings := slice_to 36 (order_by Qle_bool avg_rate visible3) in
         let data := StorefrontData
                       (mkStorefront featured_listings recent_listings
                                     most_popular_listings) in
         cache_set key data ;;;
         ret data)
        (fun e => ret (ErrorData ("Error getting storefront: " ++ str e)))
  | Some data => ret data
  end.

(** *** get_metadata *)

Definition get_metadata : M Value :=
  let key := "metadata" in
  data <- cache_get key ;;
  match data with
  | None =>
      try_except
        (cats <- objects_values QCategory Category_objects
                   (fun r => (category_title r, category_description r)) ;;
         ltypes <- objects_values QListingType ListingType_objects
                     (fun r => (ltype_title r, ltype_description r)) ;;
         ags <- objects_values QAgency Agency_objects
                  (fun r => (agency_title r, agency_short_name r, agency_icon_url r)) ;;
         cts <- objects_values QContactType ContactType_objects
                  (fun r => (contact_name r, contact_required r)) ;;
         ins <- objects_values QIntent Intent_objects
                  (fun r => (intent_action r, intent_media_type r,
                             intent_label r, intent_icon r)) ;;
         let data := MetadataData (mkMetadata cats ltypes ags cts ins) in
         cache_set key data ;;;
         ret data)
        (fun e => ret (ErrorData ("Error getting metadata: " ++ str e)))
  | Some data => ret data
  end.

(** *** Reading a world *)

(** No call into a collaborator among the next [n] raises. *)
Definition quiet (n : nat) (w : World) : Prop :=
  forall i, (i < n)%nat -> w_faults w (i + w_calls w)%nat = None.

(** The username has exactly the row [p] in the profile table. *)
Definition has_profile (w : World) (username : string) (p : Profile) : Prop :=
  List.filter (fun q => String.eqb (profile_username q) username)
              (Profile_objects (w_db w)) = [p].

Definition no_profile (w : World) (username : string) : Prop :=
  List.filter (fun q => String.eqb (profile_username q) username)
              (Profile_objects (w_db w)) = [].

End ModelAccess.

(** ** The notification engine

    The views and the notification queries behind
    [/api/self/notification/], [/api/notifications/pending/],
    [/api/notifications/expired/] and [/api/notification/] are known here
    through their test module only; the definitions of this module follow
    the specification, section 4.5 and the table of section 6. *)

Module NotificationEngine.

Import QuerySet.

(** Modelled from the spec: the timestamps of a notification, which the
    missing serializer renders; the fields and ranges are those of a UTC
    [datetime.datetime]. *)
Record DateTime := mkDateTime {
  year : Z; month : Z; day : Z;
  hour : Z; minute : Z; second : Z; microsecond : Z }.

Definition within (lo hi n : Z) : bool := (lo <=? n)%Z && (n <=? hi)%Z.

(** Modelled from the spec: the field ranges of a timestamp, those of
    [datetime.datetime]. *)
Definition dt_valid (d : DateTime) : bool :=
  within 1 9999 (year d) && within 1 12 (month d) && within 1 31 (day d)
  && within 0 23 (hour d) && within 0 59 (minute d) && within 0 59 (second d)
  && within 0 999999 (microsecond d).

(** Modelled from the spec: the position of a timestamp on the time line,
    for the comparisons with "now": the fields read as one mixed-radix
    number, most significant first, which orders valid datetimes as
    [datetime] compares them. *)
Definition instant (d : DateTime) : Z :=
  ((((((year d * 13 + month d) * 32 + day d) * 24 + hour d) * 60
      + minute d) * 60 + second d) * 1000000 + microsecond d)%Z.

Definition digit_char (d : Z) : ascii := ascii_of_N (48 + Z.to_N d).

(** Modelled from the spec: a field of a rendered timestamp, zero-padded to
    its width. *)
Fixpoint zero_pad (width : nat) (n : Z) : string :=
  match width with
  | O => ""
  | S w => zero_pad w (n / 10) ++ String (digit_char (n mod 10)) ""
  end.

(** Modelled from the spec: the missing serializer's rendering of a
    timestamp, [YYYY-MM-DDTHH:MM:SS.ffffffZ]. *)
Definition render_datetime (d : DateTime) : string :=
  zero_pad 4 (year d) ++ "-" ++ zero_pad 2 (month d) ++ "-" ++ zero_pad 2 (day d)
  ++ "T" ++ zero_pad 2 (hour d) ++ ":" ++ zero_pad 2 (minute d) ++ ":"
  ++ zero_pad 2 (second d) ++ "." ++ zero_pad 6 (microsecond d) ++ "Z".

(** The shape [YYYY-MM-DDTHH:MM:SS.ffffffZ]: [9] stands for a decimal digit,
    any other character for itself. *)
Definition is_digit (c : ascii) : bool :=
  ((48 <=? N_of_ascii c) && (N_of_ascii c <=? 57))%N.

Fixpoint has_shape (pattern s : string) : bool :=
  match pattern, s with
  | EmptyString, EmptyString => true
  | String p pattern', String c s' =>
      (if Ascii.eqb p "9" then is_digit c else Ascii.eqb p c)
      && has_shape pattern' s'
  | _, _ => false
  end.

Definition iso_shape : string := "9999-99-99T99:99:99.999999Z".

(** Reading the fields back, as the tests do with
    [strptime(i, "%Y-%m-%dT%H:%M:%S.%fZ")] on a string of that shape. *)
Definition digit_value (c : ascii) : option Z :=
  if is_digit c then Some (Z.of_N (N_of_ascii c) - 48)%Z else None.

Fixpoint read_number (acc : Z) (s : string) : option Z :=
  match s with
  | EmptyString => Some acc
  | String c s' =>
      match digit_value c with
      | Some v => read_number (acc * 10 + v) s'
      | None => None
      end
  end.

Definition number_at (start len : nat) (s : string) : option Z :=
  read_number 0 (String.substring start len s).

Definition strptime_iso (s : string) : option DateTime :=
  if has_shape iso_shape s then
    match number_at 0 4 s, number_at 5 2 s, number_at 8 2 s,
          number_at 11 2 s, number_at 14 2 s, number_at 17 2 s,
          number_at 20 6 s with
    | Some y, Some mo, Some d, Some h, Some mi, Some sec, Some us =>
        Some (mkDateTime y mo d h mi sec us)
    | _, _, _, _, _, _, _ => None
    end
  else None.

(** Modelled from the spec: the audience scope of a notification, one of
    all users, the stakeholders of a listing, an organization. *)
Inductive Audience :=
| AllUsers
| ListingAudience (listing : Z)
| AgencyAudience (agency : string).

(** Modelled from the spec: the notification record, with the fields of
    section 6 ([listing] is read off the audience). *)
Record Notification := mkNotification {
  id : Z;
  author : string;
  audience : Audience;
  created_date : DateTime;
  message : string;
  expires_date : DateTime }.

(** Modelled from the spec: the nullable [listing] field of the exposed
    record. *)
Definition listing (n : Notification) : option Z :=
  match audience n with ListingAudience l => Some l | _ => None end.

(** Modelled from the spec: a resolved identity; [elevated] is the answer of
    the role check, which the spec treats as a black box. *)
Record Identity := mkIdentity {
  username : string;
  organizations : list string;
  owned_listings : list Z;
  elevated : bool }.

(** Modelled from the spec: the notifications and the dismissal markers, one
    per (user, notification). *)
Record Store := mkStore {
  notifications : list Notification;
  dismissals : list (string * Z) }.

(** Modelled from the spec: the status codes of the table of section 6. *)
Inductive Response (A : Type) :=
| Ok200 (body : A)
| Created201 (body : A)
| NoContent204
| Unauthorized401
| Forbidden403
| NotFound404.
Arguments Ok200 {A} body.
Arguments Created201 {A} body.
Arguments NoContent204 {A}.
Arguments Unauthorized401 {A}.
Arguments Forbidden403 {A}.
Arguments NotFound404 {A}.

(** Modelled from the spec: Pending is [now < expires_date], computed at
    query time. *)
Definition pending (now : DateTime) (n : Notification) : bool :=
  (instant now <? instant (expires_date n))%Z.

(** Modelled from the spec: Expired is [now >= expires_date]. *)
Definition expired (now : DateTime) (n : Notification) : bool :=
  (instant now >=? instant (expires_date n))%Z.

(** Modelled from the spec: the audience of a user is global, the user's
    organizations, and the listings the user owns. *)
Definition addressed_to (u : Identity) (n : Notification) : bool :=
  match audience n with
  | AllUsers => true
  | ListingAudience l => bool_decide (l ∈ owned_listings u)
  | AgencyAudience a => bool_decide (a ∈ organizations u)
  end.

(** Modelled from the spec: the user has a dismissal marker for the
    notification. *)
Definition dismissed_by (st : Store) (u : Identity) (n : Notification) : bool :=
  bool_decide ((username u, id n) ∈ dismissals st).

(** Modelled from the spec: the [ordering] parameter; absent and
    [-created_date] are descending, [created_date] is ascending. *)
Inductive Ordering := DefaultOrdering | CreatedDescending | CreatedAscending.

Definition descends (ordering : Ordering) : bool :=
  match ordering with CreatedAscending => false | _ => true end.

Definition created (n : Notification) : Z := instant (created_date n).

(** Modelled from the spec: the ascending order of the feed, by
    [created_date] with ties broken by ascending id. *)
Definition earlier (a b : Notification) : bool :=
  (created a <? created b)%Z
  || ((created a =? created b)%Z && (id a <=? id b)%Z).

(** Modelled from the spec: [a] comes no later than [b] in the feed.  The
    descending order is the ascending one read backwards, as the ordering
    invariant of section 8 has it. *)
Definition before (ordering : Ordering) (a b : Notification) : bool :=
  if descends ordering then earlier b a else earlier a b.

(** Modelled from the spec: the notifications addressed to the user's
    audience that the user has not dismissed, Pending or Expired alike. *)
Definition visible_to (st : Store) (u : Identity) : list Notification :=
  List.filter (fun n => addressed_to u n && negb (dismissed_by st u n))
              (notifications st).

(** Modelled from the spec: [listSelfFeed(user, ordering)]. *)
Definition listSelfFeed (st : Store) (caller : option Identity)
    (ordering : Ordering) : Response (list Notification) :=
  match caller with
  | None => Unauthorized401
  | Some u => Ok200 (order_by (before ordering) (fun n => n) (visible_to st u))
  end.

(** Modelled from the spec: the lookup of a notification by id. *)
Definition find_notification (st : Store) (i : Z) : option Notification :=
  List.find (fun n => (id n =? i)%Z) (notifications st).

(** Modelled from the spec: [dismiss(user, notificationId)]; it records the
    marker once, needs an authenticated caller and an existing
    notification, and does not look at the clock. *)
Definition dismiss (st : Store) (caller : option Identity) (i : Z)
    : Response unit * Store :=
  match caller with
  | None => (Unauthorized401, st)
  | Some u =>
      match find_notification st i with
      | None => (NotFound404, st)
      | Some _ =>
          (NoContent204,
           if bool_decide ((username u, i) ∈ dismissals st) then st
           else mkStore (notifications st) ((username u, i) :: dismissals st))
      end
  end.

(** Modelled from the spec: the optional narrowing to the notifications
    scoped to a listing id. *)
Definition matches_listing (filter : option Z) (n : Notification) : bool :=
  match filter with
  | None => true
  | Some l => match listing n with Some l' => (l' =? l)%Z | None => false end
  end.

(** Modelled from the spec: the role gate; a caller without the elevated
    role is rejected whatever the filter. *)
Definition role_gated {A} (caller : option Identity) (body : Identity -> Response A)
    : Response A :=
  match caller with
  | None => Unauthorized401
  | Some u => if elevated u then body u else Forbidden403
  end.

(** Modelled from the spec: [listPending(user, listingFilter)]. *)
Definition listPending (st : Store) (now : DateTime) (caller : option Identity)
    (filter : option Z) : Response (list Notification) :=
  role_gated caller (fun _ =>
    Ok200 (List.filter (fun n => pending now n && matches_listing filter n)
                       (notifications st))).

(** Modelled from the spec: [listExpired(user, listingFilter)]. *)
Definition listExpired (st : Store) (now : DateTime) (caller : option Identity)
    (filter : option Z) : Response (list Notification) :=
  role_gated caller (fun _ =>
    Ok200 (List.filter (fun n => expired now n && matches_listing filter n)
                       (notifications st))).

(** The [expires_date] strings of a response body. *)
Definition rendered_expiry (body : list Notification) : list string :=
  List.map (fun n => render_datetime (expires_date n)) body.

(** Modelled from the spec: the id assigned to a new record. *)
Definition fresh_id (st : Store) : Z :=
  (1 + foldr Z.max 0 (List.map id (notifications st)))%Z.

(** Modelled from the spec: [create(actor, message, expires_date, audience)];
    the record is persisted with [created_date = now] and a new id. *)
Definition create (st : Store) (now : DateTime) (caller : option Identity)
    (msg : string) (expires : DateTime) (aud : Audience)
    : Response Notification * Store :=
  match caller with
  | None => (Unauthorized401, st)
  | Some u =>
      if elevated u then
        let n := mkNotification (fresh_id st) (username u) aud now msg expires in
        (Created201 n, mkStore (notifications st ++ [n])%list (dismissals st))
      else (Forbidden403, st)
  end.

(** Modelled from the spec: the mutation of [expires_date] on the record
    with the given id. *)
Definition set_expiry (i : Z) (expires : DateTime) (n : Notification) : Notification :=
  if (id n =? i)%Z then
    mkNotification (id n) (author n) (audience n) (created_date n) (message n) expires
  else n.

(** Modelled from the spec: [update(actor, notificationId, fields)] for the
    field [expires_date]; any authenticated caller may update. *)
Definition update (st : Store) (caller : option Identity) (i : Z)
    (expires : DateTime) : Response Notification * Store :=
  match caller with
  | None => (Unauthorized401, st)
  | Some u =>
      match find_notification st i with
      | None => (NotFound404, st)
      | Some n =>
          (Ok200 (set_expiry i expires n),
           mkStore (List.map (set_expiry i expires) (notifications st))
                   (dismissals st))
      end
  end.

(** The requests that change the store, each with the clock reading at
    which it is served, and their effect. *)
Inductive Request :=
| DoDismiss (caller : option Identity) (i : Z)
| DoCreate (now : DateTime) (caller : option Identity) (msg : string)
           (expires : DateTime) (aud : Audience)
| DoUpdate (caller : option Identity) (i : Z) (expires : DateTime).

Definition serve (st : Store) (r : Request) : Store :=
  match r with
  | DoDismiss caller i => snd (dismiss st caller i)
  | DoCreate now caller msg expires aud => snd (create st now caller msg expires aud)
  | DoUpdate caller i expires => snd (update st caller i expires)
  end.

Definition serve_all (st : Store) (rs : list Request) : Store :=
  fold_left serve rs st.

Definition feed_ids (r : Response (list Notification)) : list Z :=
  match r with Ok200 body => List.map id body | _ => [] end.

End NotificationEngine.

(** ** Sample data *)

Module Samples.

Import ModelAccess.

Definition minitrue : Agency :=
  mkAgency "Ministry of Truth" "Minitrue" "/static/minitrue.png".
Definition minipax : Agency :=
  mkAgency "Ministry of Peace" "Minipax" "/static/minipax.png".

Definition unclassified : AccessControl := mkAccessControl "UNCLASSIFIED".

Definition wsmith : Profile := mkProfile "wsmith" [minitrue; minipax] unclassified.
Definition julia : Profile := mkProfile "julia" [minipax; minitrue] unclassified.

Definition air_mail : Listing := mkListing 1 true 30 (7 # 2).
Definition bread_basket : Listing := mkListing 2 false 10 (9 # 2).
Definition chart_course : Listing := mkListing 3 true 20 (1 # 1).

Definition catalog : Database :=
  mkDatabase [wsmith; julia]
             (fun _ => [air_mail; bread_basket; chart_course])
             [mkCategory "Books" "Things made of paper"]
             [mkListingType "web application" "runs in a browser"]
             [minitrue; minipax]
             [mkContactType "Technical Support" true]
             [mkIntent "/application/json/view" "vnd.ozp-intent-v1+json.json"
                       "view" "/static/view.png"].

(** The bundle of wsmith over this catalog. *)
Definition wsmith_bundle : Storefront :=
  mkStorefront [air_mail; chart_course]
               [bread_basket; chart_course; air_mail]
               [chart_course; air_mail; bread_basket].

(** Nothing cached, no call made, and no fault scheduled. *)
Definition calm : World := mkWorld catalog ∅ (fun _ => None) 0 [].

(** As [calm], but the [n]-th call into a collaborator raises. *)
Definition failing_at (n : nat) : World :=
  mkWorld catalog ∅
          (fun i => if Nat.eqb i n then Some "database is locked" else None) 0 [].

End Samples.

Module NotificationSamples.

Import NotificationEngine.

Definition wsmith : Identity := mkIdentity "wsmith" ["Ministry of Truth"] [1%Z] true.
Definition jones : Identity := mkIdentity "jones" ["Ministry of Truth"] [] false.
Definition bigbrother : Identity := mkIdentity "bigbrother" [] [] true.

Definition on_day (y m d : Z) : DateTime := mkDateTime y m d 0 0 0 0.

(** The value of [expires_date] that the creation test posts,
    2016-09-01T15:45:55.322421Z. *)
Definition test_expiry : DateTime := mkDateTime 2016 9 1 15 45 55 322421.

Definition spring : DateTime := on_day 2016 3 1.

Definition going_down : Notification :=
  mkNotification 1 "bigbrother" AllUsers (on_day 2016 1 1)
                 "system is going down" test_expiry.
Definition was_down : Notification :=
  mkNotification 2 "bigbrother" AllUsers (on_day 2016 1 2)
                 "system was down" (on_day 2016 2 1).
Definition room_open : Notification :=
  mkNotification 3 "bigbrother" (AgencyAudience "Ministry of Love")
                 (on_day 2016 1 3) "room 101 is open" (on_day 2016 12 1).
Definition basket_updated : Notification :=
  mkNotification 4 "julia" (ListingAudience 7) (on_day 2016 1 4)
                 "bread basket was updated" (on_day 2016 2 2).
Definition mail_updated : Notification :=
  mkNotification 5 "wsmith" (ListingAudience 1) (on_day 2016 1 5)
                 "air mail was updated" (on_day 2016 12 2).

(** wsmith sees the notifications 1, 2 and 5, created in that order. *)
Definition seeded : Store :=
  mkStore [going_down; was_down; room_open; basket_updated; mail_updated] [].


(** Requests served after a dismissal: by other users and by the same one. *)
Definition later_requests : list Request :=
  [ DoCreate spring (Some bigbrother) "a simple test" test_expiry AllUsers;
    DoUpdate (Some jones) 5 (on_day 2016 1 6);
    DoDismiss (Some jones) 5;
    DoDismiss (Some wsmith) 1 ].

End NotificationSamples.

(** ** What a recomputation yields *)

Module Views.

Import QuerySet ModelAccess.

(** The bundle that the [try] block of [get_storefront] builds from a
    database for a user. *)
Definition storefront_of (db : Database) (username : string) : Storefront :=
  let visible := Listing_for_user db username in
  mkStorefront (slice_to 12 (filter_featured visible))
               (slice_to 24 (order_by Z.leb approved_date visible))
               (slice_to 36 (order_by Qle_bool avg_rate visible)).

(** The snapshot that the [try] block of [get_metadata] builds from a
    database. *)
Definition metadata_of (db : Database) : Metadata :=
  mkMetadata
    (List.map (fun r => (category_title r, category_description r))
              (Category_objects db))
    (List.map (fun r => (ltype_title r, ltype_description r))
              (ListingType_objects db))
    (List.map (fun r => (agency_title r, agency_short_name r, agency_icon_url r))
              (Agency_objects db))
    (List.map (fun r => (contact_name r, contact_required r))
              (ContactType_objects db))
    (List.map (fun r => (intent_action r, intent_media_type r,
                         intent_label r, intent_icon r))
              (Intent_objects db)).

End Views.

(** ** More sample data *)

Module SharedSamples.

Import ModelAccess Samples.


(** A colleague of wsmith: the same organizations in the same order, and an
    access level whose title differs in case only. *)
Definition syme : Profile :=
  mkProfile "syme" [minitrue; minipax] (mkAccessControl "Unclassified").

(** wsmith sees three listings, syme only one of them. *)
Definition partitioned : Database :=
  mkDatabase [wsmith; syme]
             (fun username =>
                if String.eqb username "syme" then [bread_basket]
                else [air_mail; bread_basket; chart_course])
             [] [] [] [] [].

Definition office : World := mkWorld partitioned ∅ (fun _ => None) 0 [].

(** Forty listings, approved in the reverse order of their ids and rated by
    their ids; every second one is featured. *)
Definition forty : list Listing :=
  List.map (fun i => mkListing (Z.of_nat i) (Nat.even i) (40 - Z.of_nat i)
                               (Z.of_nat i # 1))
           (seq 1 40).

Definition crowded : World :=
  mkWorld (mkDatabase [wsmith] (fun _ => forty) [] [] [] [] [])
          ∅ (fun _ => None) 0 [].

End SharedSamples.

(** * Properties *)

(** ** Sorting *)

Module QuerySetFacts.

Import QuerySet.

Section OrderByFacts.
Context {A K : Type} (leb : K -> K -> bool) (field : A -> K).
Hypothesis leb_total : forall a b, leb a b = false -> leb b a = true.
Hypothesis leb_trans : forall a b c, leb a b = true -> leb b c = true -> leb a c = true.

Lemma insert_by_perm (x : A) (l : list A) :
  Permutation (x :: l) (insert_by leb field x l).
Proof using Type.
  induction l as [|y l IH]; simpl; [reflexivity|].
  destruct (leb (field x) (field y)); [reflexivity|].
  rewrite perm_swap. now apply perm_skip.
Qed.

Lemma order_by_perm (l : list A) : Permutation l (order_by leb field l).
Proof using Type.
  induction l as [|x l IH]; simpl; [constructor|].
  rewrite <- insert_by_perm. now apply perm_skip.
Qed.

Lemma insert_by_sorted (x : A) (l : list A) :
  StronglySorted (ascending leb field) l -> StronglySorted (ascending leb field) (insert_by leb field x l).
Proof using leb_total leb_trans.
  induction 1 as [|y l Hs IH Hall]; simpl.
  - repeat constructor.
  - destruct (leb (field x) (field y)) eqn:E.
    + constructor; [now constructor|].
      constructor; [exact E|].
      eapply Forall_impl; [exact Hall|].
      intros z Hz. unfold ascending in *. eauto.
    + constructor; [exact IH|].
      rewrite <- insert_by_perm.
      constructor; [|exact Hall].
      now apply leb_total.
Qed.

Lemma order_by_sorted (l : list A) : StronglySorted (ascending leb field) (order_by leb field l).
Proof using leb_total leb_trans.
  induction l as [|x l IH]; simpl; [constructor|].
  now apply insert_by_sorted.
Qed.

Lemma order_by_length (l : list A) : length (order_by leb field l) = length l.
Proof using Type.
  symmetry. apply Permutation_length, order_by_perm.
Qed.



End OrderByFacts.

Lemma Zleb_total (a b : Z) : (a <=? b)%Z = false -> (b <=? a)%Z = true.
Proof. lia. Qed.

Lemma Zleb_trans (a b c : Z) :
  (a <=? b)%Z = true -> (b <=? c)%Z = true -> (a <=? c)%Z = true.
Proof. lia. Qed.

Lemma Qle_bool_total (a b : Q) : Qle_bool a b = false -> Qle_bool b a = true.
Proof.
  intros H. apply Qle_bool_iff, Qlt_le_weak, Qnot_le_lt.
  intros Hle. apply Qle_bool_iff in Hle. congruence.
Qed.

Lemma Qle_bool_trans (a b c : Q) :
  Qle_bool a b = true -> Qle_bool b c = true -> Qle_bool a c = true.
Proof.
  rewrite !Qle_bool_iff. apply Qle_trans.
Qed.

End QuerySetFacts.

(** ** model_access.py *)

Module ModelAccessFacts.

Import Chars QuerySet QuerySetFacts ModelAccess.

(** *** Running the monad *)

Lemma bind_returned {A B} (m : M A) (k : A -> M B) w a w' :
  m w = (Returned a, w') -> bind m k w = k a w'.
Proof. unfold bind. now intros ->. Qed.

Lemma bind_raised {A B} (m : M A) (k : A -> M B) w e w' :
  m w = (Raised e, w') -> bind m k w = (Raised e, w').
Proof. unfold bind. now intros ->. Qed.

Lemma try_returned {A} (m : M A) h w a w' :
  m w = (Returned a, w') -> try_except m h w = (Returned a, w').
Proof. unfold try_except. now intros ->. Qed.

Lemma try_raised {A} (m : M A) h w e w' :
  m w = (Raised e, w') -> try_except m h w = h e w'.
Proof. unfold try_except. now intros ->. Qed.

Lemma invoke_ok ev w :
  w_faults w (w_calls w) = None -> invoke ev w = (Returned tt, tick ev w).
Proof. unfold invoke. now intros ->. Qed.

Lemma invoke_fault ev w detail :
  w_faults w (w_calls w) = Some detail ->
  invoke ev w = (Raised (Fault detail), tick ev w).
Proof. unfold invoke. now intros ->. Qed.

Lemma has_profile_username w u p : has_profile w u p -> profile_username p = u.
Proof.
  unfold has_profile. intros H.
  assert (Hin : In p (List.filter (fun q => String.eqb (profile_username q) u)
                                  (Profile_objects (w_db w))))
    by (rewrite H; now left).
  apply filter_In in Hin. destruct Hin as [_ Hin]. now apply String.eqb_eq in Hin.
Qed.

Lemma Profile_objects_get_ok w u p :
  w_faults w (w_calls w) = None -> has_profile w u p ->
  Profile_objects_get u w = (Returned p, tick (QProfile u) w).
Proof.
  intros Hf Hp. unfold Profile_objects_get.
  rewrite (bind_returned _ _ _ _ _ (invoke_ok _ _ Hf)).
  unfold bind, read. simpl. red in Hp. now rewrite Hp.
Qed.

Lemma Profile_objects_get_missing w u :
  w_faults w (w_calls w) = None -> no_profile w u ->
  Profile_objects_get u w
  = (Raised (DoesNotExist "Profile matching query does not exist."),
     tick (QProfile u) w).
Proof.
  intros Hf Hp. unfold Profile_objects_get.
  rewrite (bind_returned _ _ _ _ _ (invoke_ok _ _ Hf)).
  unfold bind, read. simpl. red in Hp. now rewrite Hp.
Qed.

Lemma Profile_objects_get_many w u p q rows :
  w_faults w (w_calls w) = None ->
  List.filter (fun r => String.eqb (profile_username r) u) (Profile_objects (w_db w))
  = p :: q :: rows ->
  Profile_objects_get u w
  = (Raised (MultipleObjectsReturned "get() returned more than one Profile"),
     tick (QProfile u) w).
Proof.
  intros Hf Hp. unfold Profile_objects_get.
  rewrite (bind_returned _ _ _ _ _ (invoke_ok _ _ Hf)).
  unfold bind, read. simpl. now rewrite Hp.
Qed.

Lemma Profile_objects_get_fault w u detail :
  w_faults w (w_calls w) = Some detail ->
  Profile_objects_get u w = (Raised (Fault detail), tick (QProfile u) w).
Proof.
  intros Hf. unfold Profile_objects_get.
  now rewrite (bind_raised _ _ _ _ _ (invoke_fault _ _ _ Hf)).
Qed.

Lemma organizations_all_ok w p :
  w_faults w (w_calls w) = None ->
  organizations_all p w
  = (Returned (profile_organizations p), tick (QOrganizations (profile_username p)) w).
Proof.
  intros Hf. unfold organizations_all.
  now rewrite (bind_returned _ _ _ _ _ (invoke_ok _ _ Hf)).
Qed.

Lemma access_control_ok w p :
  w_faults w (w_calls w) = None ->
  access_control p w
  = (Returned (profile_access_control p), tick (QAccessControl (profile_username p)) w).
Proof.
  intros Hf. unfold access_control.
  now rewrite (bind_returned _ _ _ _ _ (invoke_ok _ _ Hf)).
Qed.

Lemma cache_get_ok w key :
  w_faults w (w_calls w) = None ->
  cache_get key w = (Returned (w_cache w !! key), tick (CacheGet key) w).
Proof.
  intros Hf. unfold cache_get.
  now rewrite (bind_returned _ _ _ _ _ (invoke_ok _ _ Hf)).
Qed.

Lemma cache_set_ok w key data :
  w_faults w (w_calls w) = None ->
  cache_set key data w = (Returned tt, store key data (tick (CacheSet key) w)).
Proof.
  intros Hf. unfold cache_set.
  now rewrite (bind_returned _ _ _ _ _ (invoke_ok _ _ Hf)).
Qed.

Lemma cache_set_fault w key data detail :
  w_faults w (w_calls w) = Some detail ->
  cache_set key data w = (Raised (Fault detail), tick (CacheSet key) w).
Proof.
  intros Hf. unfold cache_set.
  now rewrite (bind_raised _ _ _ _ _ (invoke_fault _ _ _ Hf)).
Qed.

Lemma for_user_ok w u :
  w_faults w (w_calls w) = None ->
  Listing_objects_for_user u w
  = (Returned (Listing_for_user (w_db w) u), tick (QListings u) w).
Proof.
  intros Hf. unfold Listing_objects_for_user.
  now rewrite (bind_returned _ _ _ _ _ (invoke_ok _ _ Hf)).
Qed.

Lemma for_user_fault w u detail :
  w_faults w (w_calls w) = Some detail ->
  Listing_objects_for_user u w = (Raised (Fault detail), tick (QListings u) w).
Proof.
  intros Hf. unfold Listing_objects_for_user.
  now rewrite (bind_raised _ _ _ _ _ (invoke_fault _ _ _ Hf)).
Qed.

Lemma objects_values_ok {R T} ev (table : Database -> list R) (project : R -> T) w :
  w_faults w (w_calls w) = None ->
  objects_values ev table project w
  = (Returned (List.map project (table (w_db w))), tick ev w).
Proof.
  intros Hf. unfold objects_values.
  now rewrite (bind_returned _ _ _ _ _ (invoke_ok _ _ Hf)).
Qed.

Lemma objects_values_fault {R T} ev (table : Database -> list R) (project : R -> T)
    w detail :
  w_faults w (w_calls w) = Some detail ->
  objects_values ev table project w = (Raised (Fault detail), tick ev w).
Proof.
  intros Hf. unfold objects_values.
  now rewrite (bind_raised _ _ _ _ _ (invoke_fault _ _ _ Hf)).
Qed.

(** [run_ok lemma]: the next call returns; [run_fault lemma]: it raises. *)
Ltac world_simpl :=
  cbn [w_db w_cache w_faults w_calls w_trace tick store].
Ltac run_ok lem :=
  erewrite bind_returned by (apply lem; world_simpl; eassumption).
Ltac run_fault lem :=
  erewrite bind_raised by (apply lem; world_simpl; eassumption).
Ltac fault_caught lem :=
  erewrite try_raised by (run_fault lem; reflexivity).

(** The first [n] entries of a quiet schedule, as hypotheses. *)
Ltac quiet_facts Hq n :=
  let rec go i :=
    lazymatch i with
    | O => idtac
    | S ?j => let H := fresh "Hquiet" in
              pose proof (Hq j ltac:(lia)) as H; simpl in H; go j
    end in
  go n.

(** The calls of identity resolution and the cache lookup, for a user whose
    profile exists in a world that lets four calls through. *)
Ltac resolve_identity :=
  run_ok Profile_objects_get_ok;
  run_ok organizations_all_ok;
  run_ok access_control_ok;
  run_ok cache_get_ok;
  world_simpl.

Lemma StronglySorted_impl {A} (R S : A -> A -> Prop) (l : list A) :
  (forall a b, R a b -> S a b) -> StronglySorted R l -> StronglySorted S l.
Proof.
  intros HRS. induction 1 as [|x l _ IH Hall]; constructor; [exact IH|].
  eapply Forall_impl; [exact Hall|]. auto.
Qed.

Lemma order_by_approved_date (l : list Listing) :
  StronglySorted (fun a b => (approved_date a <= approved_date b)%Z)
                 (order_by Z.leb approved_date l).
Proof.
  eapply StronglySorted_impl;
    [|apply (order_by_sorted Z.leb approved_date Zleb_total Zleb_trans)].
  unfold ascending. intros a b H. lia.
Qed.

Lemma order_by_avg_rate (l : list Listing) :
  StronglySorted (fun a b => (avg_rate a <= avg_rate b)%Q)
                 (order_by Qle_bool avg_rate l).
Proof.
  eapply StronglySorted_impl;
    [|apply (order_by_sorted Qle_bool avg_rate Qle_bool_total Qle_bool_trans)].
  unfold ascending. intros a b H. now apply Qle_bool_iff.
Qed.

(** *** make_keysafe *)

Lemma lower_char_word (c : ascii) : is_word c = true -> is_word (lower_char c) = true.
Proof.
  destruct c as [[] [] [] [] [] [] [] []]; vm_compute; intros H;
    first [reflexivity | discriminate H].
Qed.

(** The result of [make_keysafe] is made of word characters only, and the
    underscore is one of them. *)
Lemma make_keysafe_word (key : string) :
  string_forall is_word (make_keysafe key) = true.
Proof.
  unfold make_keysafe. induction key as [|c key IH]; simpl; [reflexivity|].
  destruct (is_word c) eqn:E; simpl; [|exact IH].
  now rewrite lower_char_word, IH.
Qed.

Lemma make_keysafe_app (s t : string) :
  make_keysafe (s ++ t) = make_keysafe s ++ make_keysafe t.
Proof.
  unfold make_keysafe. induction s as [|c s IH]; simpl; [reflexivity|].
  destruct (is_word c); simpl; now rewrite IH.
Qed.

(** C7: [make_keysafe] lower-cases and removes the characters outside [\w],
    which leaves the underscore in place although it is not alphanumeric:
    on ["Ministry of Truth_"], the string that [get_storefront] builds for
    a member of that organization, it yields ["ministryoftruth_"], where
    lower-casing and removing every character that is not alphanumeric
    yields ["ministryoftruth"]; the same holds after every title. *)
Theorem make_keysafe_keeps_underscore :
  make_keysafe "Ministry of Truth_" = "ministryoftruth_"
  /\ documented_keysafe "Ministry of Truth_" = "ministryoftruth"
  /\ isalnum "_" = false
  /\ string_forall isalnum (make_keysafe "Ministry of Truth_") = false
  /\ (forall title, make_keysafe (title ++ "_") = make_keysafe title ++ "_").
Proof.
  do 4 (split; [vm_compute; reflexivity|]).
  intros title. now rewrite make_keysafe_app.
Qed.

(** *** get_storefront: the cache miss *)

(** C5: on a cache miss with no fault, [get_storefront] makes three listing
    queries for the user: featured is the first 12 of the visible listings
    flagged [is_featured], recent the first 24 of the visible listings in
    ascending [approved_date], most_popular the first 36 of them in
    ascending [avg_rate]; the bundle is stored under the derived key and
    returned. *)
Theorem get_storefront_miss (w : World) (u : string) (p : Profile) :
  let key := storefront_key (profile_organizations p) (profile_access_control p) in
  let visible := Listing_for_user (w_db w) u in
  quiet 8 w -> has_profile w u p -> w_cache w !! key = None ->
  exists (d : Storefront) (w' : World),
    get_storefront u w = (Returned (StorefrontData d), w')
    /\ featured d = firstn 12 (List.filter is_featured visible)
    /\ (exists sorted,
           recent d = firstn 24 sorted /\ Permutation visible sorted
           /\ StronglySorted (fun a b => (approved_date a <= approved_date b)%Z) sorted)
    /\ (exists sorted,
           most_popular d = firstn 36 sorted /\ Permutation visible sorted
           /\ StronglySorted (fun a b => (avg_rate a <= avg_rate b)%Q) sorted)
    /\ w_cache w' = <[key := StorefrontData d]> (w_cache w)
    /\ w_trace w'
       = (w_trace w ++ [QProfile u; QOrganizations u; QAccessControl u; CacheGet key;
                        QListings u; QListings u; QListings u; CacheSet key])%list.
Proof.
  intros key visible Hq Hp Hc.
  pose proof (has_profile_username _ _ _ Hp) as Hu.
  quiet_facts Hq 8%nat.
  unfold get_storefront. resolve_identity. fold key. rewrite Hc.
  erewrite try_returned.
  2:{ do 3 run_ok for_user_ok. run_ok cache_set_ok. reflexivity. }
  world_simpl. fold key. fold visible. rewrite Hu.
  eexists _, _. split; [reflexivity|].
  cbn [featured recent most_popular].
  split; [reflexivity|].
  split.
  { exists (order_by Z.leb approved_date visible).
    split; [reflexivity|]. split; [apply order_by_perm|apply order_by_approved_date]. }
  split.
  { exists (order_by Qle_bool avg_rate visible).
    split; [reflexivity|]. split; [apply order_by_perm|apply order_by_avg_rate]. }
  split; [reflexivity|].
  world_simpl. repeat rewrite <- app_assoc. reflexivity.
Qed.

Lemma get_storefront_miss_witness :
  let key := "storefront:ministryoftruth_ministryofpeace_:unclassified" in
  exists (d : Storefront) (w' : World),
    get_storefront "wsmith" Samples.calm = (Returned (StorefrontData d), w')
    /\ featured d = [Samples.air_mail; Samples.chart_course]
    /\ recent d = [Samples.bread_basket; Samples.chart_course; Samples.air_mail]
    /\ most_popular d = [Samples.chart_course; Samples.air_mail; Samples.bread_basket]
    /\ w_cache w' !! key = Some (StorefrontData d).
Proof.
  destruct (get_storefront_miss Samples.calm "wsmith" Samples.wsmith)
    as (d & w' & Hrun & Hf & _ & _ & Hcache & _).
  - intros i _. reflexivity.
  - reflexivity.
  - apply lookup_empty.
  - exists d, w'. split; [exact Hrun|].
    assert (E : fst (get_storefront "wsmith" Samples.calm)
                = Returned (StorefrontData d)) by now rewrite Hrun.
    vm_compute in E. injection E as <-.
    repeat split. rewrite Hcache. apply lookup_insert_eq.
Defined.

(** *** Faults during aggregation *)

Lemma get_storefront_fault (w : World) (u : string) (p : Profile)
    (k : nat) (detail : string) :
  let key := storefront_key (profile_organizations p) (profile_access_control p) in
  quiet 4 w -> has_profile w u p -> w_cache w !! key = None ->
  (k < 4)%nat ->
  (forall j, (j < k)%nat -> w_faults w (4 + j + w_calls w)%nat = None) ->
  w_faults w (4 + k + w_calls w)%nat = Some detail ->
  exists w',
    get_storefront u w
    = (Returned (ErrorData ("Error getting storefront: " ++ detail)), w')
    /\ w_cache w' = w_cache w.
Proof.
  intros key Hq Hp Hc Hk Hbefore Hfault.
  quiet_facts Hq 4%nat.
  unfold get_storefront. resolve_identity. fold key. rewrite Hc.
  destruct k as [|[|[|[|k]]]]; [| | | |lia]; simpl in Hfault.
  - fault_caught for_user_fault.
    eexists. split; reflexivity.
  - pose proof (Hbefore 0%nat ltac:(lia)) as B0. simpl in B0.
    erewrite try_raised by (run_ok for_user_ok; run_fault for_user_fault; reflexivity).
    eexists. split; reflexivity.
  - pose proof (Hbefore 0%nat ltac:(lia)) as B0.
    pose proof (Hbefore 1%nat ltac:(lia)) as B1. simpl in B0, B1.
    erewrite try_raised
      by (do 2 run_ok for_user_ok; run_fault for_user_fault; reflexivity).
    eexists. split; reflexivity.
  - pose proof (Hbefore 0%nat ltac:(lia)) as B0.
    pose proof (Hbefore 1%nat ltac:(lia)) as B1.
    pose proof (Hbefore 2%nat ltac:(lia)) as B2. simpl in B0, B1, B2.
    erewrite try_raised
      by (do 3 run_ok for_user_ok; run_fault cache_set_fault; reflexivity).
    eexists. split; reflexivity.
Qed.

Lemma get_metadata_fault (w : World) (k : nat) (detail : string) :
  quiet 1 w -> w_cache w !! "metadata" = None ->
  (k < 6)%nat ->
  (forall j, (j < k)%nat -> w_faults w (1 + j + w_calls w)%nat = None) ->
  w_faults w (1 + k + w_calls w)%nat = Some detail ->
  exists w',
    get_metadata w
    = (Returned (ErrorData ("Error getting metadata: " ++ detail)), w')
    /\ w_cache w' = w_cache w.
Proof.
  intros Hq Hc Hk Hbefore Hfault.
  quiet_facts Hq 1%nat.
  unfold get_metadata. run_ok cache_get_ok. world_simpl. rewrite Hc.
  destruct k as [|[|[|[|[|[|k]]]]]]; [| | | | | |lia]; simpl in Hfault.
  - fault_caught @objects_values_fault.
    eexists. split; reflexivity.
  - pose proof (Hbefore 0%nat ltac:(lia)) as B0. simpl in B0.
    erewrite try_raised
      by (run_ok @objects_values_ok; run_fault @objects_values_fault; reflexivity).
    eexists. split; reflexivity.
  - pose proof (Hbefore 0%nat ltac:(lia)) as B0.
    pose proof (Hbefore 1%nat ltac:(lia)) as B1. simpl in B0, B1.
    erewrite try_raised
      by (do 2 run_ok @objects_values_ok; run_fault @objects_values_fault;
          reflexivity).
    eexists. split; reflexivity.
  - pose proof (Hbefore 0%nat ltac:(lia)) as B0.
    pose proof (Hbefore 1%nat ltac:(lia)) as B1.
    pose proof (Hbefore 2%nat ltac:(lia)) as B2. simpl in B0, B1, B2.
    erewrite try_raised
      by (do 3 run_ok @objects_values_ok; run_fault @objects_values_fault;
          reflexivity).
    eexists. split; reflexivity.
  - pose proof (Hbefore 0%nat ltac:(lia)) as B0.
    pose proof (Hbefore 1%nat ltac:(lia)) as B1.
    pose proof (Hbefore 2%nat ltac:(lia)) as B2.
    pose proof (Hbefore 3%nat ltac:(lia)) as B3. simpl in B0, B1, B2, B3.
    erewrite try_raised
      by (do 4 run_ok @objects_values_ok; run_fault @objects_values_fault;
          reflexivity).
    eexists. split; reflexivity.
  - pose proof (Hbefore 0%nat ltac:(lia)) as B0.
    pose proof (Hbefore 1%nat ltac:(lia)) as B1.
    pose proof (Hbefore 2%nat ltac:(lia)) as B2.
    pose proof (Hbefore 3%nat ltac:(lia)) as B3.
    pose proof (Hbefore 4%nat ltac:(lia)) as B4. simpl in B0, B1, B2, B3, B4.
    erewrite try_raised
      by (do 5 run_ok @objects_values_ok; run_fault cache_set_fault; reflexivity).
    eexists. split; reflexivity.
Qed.

(** C6: when a call made during aggregation raises (one of the catalog
    queries, or the cache write that ends the block), [get_storefront]
    returns the dictionary [{error: True, msg: "Error getting storefront: "
    + detail}] and [get_metadata] the one with ["Error getting metadata: "];
    the exception does not leave the function and the cache is as it was,
    so the key is still missing for the next call. *)
Theorem aggregation_faults_are_structured
    (w : World) (u : string) (p : Profile) (k : nat) (detail : string) :
  (quiet 4 w -> has_profile w u p ->
   w_cache w !! storefront_key (profile_organizations p) (profile_access_control p)
   = None ->
   (k < 4)%nat ->
   (forall j, (j < k)%nat -> w_faults w (4 + j + w_calls w)%nat = None) ->
   w_faults w (4 + k + w_calls w)%nat = Some detail ->
   exists w',
     get_storefront u w
     = (Returned (ErrorData ("Error getting storefront: " ++ detail)), w')
     /\ w_cache w' = w_cache w
     /\ w_cache w' !! storefront_key (profile_organizations p)
                                     (profile_access_control p) = None)
  /\
  (quiet 1 w -> w_cache w !! "metadata" = None ->
   (k < 6)%nat ->
   (forall j, (j < k)%nat -> w_faults w (1 + j + w_calls w)%nat = None) ->
   w_faults w (1 + k + w_calls w)%nat = Some detail ->
   exists w',
     get_metadata w
     = (Returned (ErrorData ("Error getting metadata: " ++ detail)), w')
     /\ w_cache w' = w_cache w
     /\ w_cache w' !! "metadata" = None).
Proof.
  split.
  - intros Hq Hp Hc Hk Hbefore Hfault.
    destruct (get_storefront_fault w u p k detail Hq Hp Hc Hk Hbefore Hfault)
      as (w' & Hrun & Hcache).
    exists w'. repeat split; [exact Hrun|exact Hcache|]. now rewrite Hcache.
  - intros Hq Hc Hk Hbefore Hfault.
    destruct (get_metadata_fault w k detail Hq Hc Hk Hbefore Hfault)
      as (w' & Hrun & Hcache).
    exists w'. repeat split; [exact Hrun|exact Hcache|]. now rewrite Hcache.
Qed.

Lemma aggregation_faults_are_structured_witness :
  (exists w',
      get_storefront "wsmith" (Samples.failing_at 5)
      = (Returned (ErrorData "Error getting storefront: database is locked"), w')
      /\ w_cache w' = ∅)
  /\ (exists w',
         get_metadata (Samples.failing_at 3)
         = (Returned (ErrorData "Error getting metadata: database is locked"), w')
         /\ w_cache w' = ∅).
Proof.
  split.
  - destruct (proj1 (aggregation_faults_are_structured
                       (Samples.failing_at 5) "wsmith" Samples.wsmith 1
                       "database is locked"))
      as (w' & Hrun & Hcache & _).
    + intros i Hi. do 4 (destruct i as [|i]; [reflexivity|]). lia.
    + reflexivity.
    + apply lookup_empty.
    + lia.
    + intros j Hj. destruct j as [|j]; [reflexivity|lia].
    + reflexivity.
    + exists w'. split; [exact Hrun|exact Hcache].
  - destruct (proj2 (aggregation_faults_are_structured
                       (Samples.failing_at 3) "wsmith" Samples.wsmith 2
                       "database is locked"))
      as (w' & Hrun & Hcache & _).
    + intros i Hi. destruct i as [|i]; [reflexivity|lia].
    + apply lookup_empty.
    + lia.
    + intros j Hj. do 2 (destruct j as [|j]; [reflexivity|]). lia.
    + reflexivity.
    + exists w'. split; [exact Hrun|exact Hcache].
Defined.

(** *** get_storefront: the key *)

Lemma string_app_cons (x : ascii) (a b : string) :
  String x a ++ b = String x (a ++ b).
Proof. reflexivity. Qed.

Lemma string_app_assoc (a b c : string) : (a ++ b) ++ c = a ++ (b ++ c).
Proof.
  induction a as [|x a IH]; [reflexivity|].
  rewrite !string_app_cons. now rewrite IH.
Qed.

Lemma string_app_nil_r (a : string) : a ++ "" = a.
Proof.
  induction a as [|x a IH]; [reflexivity|].
  rewrite string_app_cons. now rewrite IH.
Qed.

(** The loop of [get_storefront] concatenates the titles in the order of the
    membership query, each followed by an underscore. *)
Lemma join_titles_foldr (organizations : list Agency) :
  join_titles organizations
  = foldr (fun t rest => t ++ "_" ++ rest) "" (List.map agency_title organizations).
Proof.
  unfold join_titles.
  enough (G : forall acc,
             fold_left (fun orgs i => orgs ++ (agency_title i ++ "_")) organizations acc
             = acc ++ foldr (fun t rest => t ++ "_" ++ rest) ""
                            (List.map agency_title organizations))
    by apply (G "").
  induction organizations as [|a l IH]; intros acc; simpl.
  - now rewrite string_app_nil_r.
  - rewrite IH. now rewrite !string_app_assoc.
Qed.

Ltac trace_done :=
  unfold ret; cbn [snd]; world_simpl; repeat rewrite <- app_assoc; reflexivity.

Lemma get_storefront_looks_up (w : World) (u : string) (p : Profile) :
  quiet 4 w -> has_profile w u p ->
  exists rest,
    w_trace (snd (get_storefront u w))
    = (w_trace w
       ++ [QProfile u; QOrganizations u; QAccessControl u;
           CacheGet (storefront_key (profile_organizations p)
                                    (profile_access_control p))]
       ++ rest)%list.
Proof.
  intros Hq Hp.
  pose proof (has_profile_username _ _ _ Hp) as Hu.
  quiet_facts Hq 4%nat.
  set (key := storefront_key (profile_organizations p) (profile_access_control p)).
  unfold get_storefront. resolve_identity. fold key. rewrite Hu.
  destruct (w_cache w !! key) as [v|].
  { exists []. trace_done. }
  destruct (w_faults w (S (S (S (S (w_calls w)))))) as [d4|] eqn:F4.
  { fault_caught for_user_fault. exists [QListings u].
    trace_done. }
  destruct (w_faults w (S (S (S (S (S (w_calls w))))))) as [d5|] eqn:F5.
  { erewrite try_raised by (run_ok for_user_ok; run_fault for_user_fault; reflexivity).
    exists [QListings u; QListings u].
    trace_done. }
  destruct (w_faults w (S (S (S (S (S (S (w_calls w)))))))) as [d6|] eqn:F6.
  { erewrite try_raised
      by (do 2 run_ok for_user_ok; run_fault for_user_fault; reflexivity).
    exists [QListings u; QListings u; QListings u].
    trace_done. }
  destruct (w_faults w (S (S (S (S (S (S (S (w_calls w))))))))) as [d7|] eqn:F7.
  { erewrite try_raised
      by (do 3 run_ok for_user_ok; run_fault cache_set_fault; reflexivity).
    exists [QListings u; QListings u; QListings u; CacheSet key].
    trace_done. }
  erewrite try_returned
    by (do 3 run_ok for_user_ok; run_ok cache_set_ok; reflexivity).
  exists [QListings u; QListings u; QListings u; CacheSet key].
  trace_done.
Qed.

(** C8, as the code has it: the key that [get_storefront] looks up is
    ["storefront:"], the normalised concatenation of the user's organization
    titles in the order in which the membership query yields them, each
    followed by an underscore, [":"], and the normalised title of the access
    level; two users with the same sequence of titles and the same level
    title share the key. *)
Theorem storefront_key_follows_title_sequence
    (w : World) (u1 u2 : string) (p1 p2 : Profile) :
  let titles p := List.map agency_title (profile_organizations p) in
  let level p := access_title (profile_access_control p) in
  let key p :=
    "storefront:"
    ++ make_keysafe (foldr (fun t rest => t ++ "_" ++ rest) "" (titles p))
    ++ ":" ++ make_keysafe (level p) in
  quiet 4 w -> has_profile w u1 p1 -> has_profile w u2 p2 ->
  (exists rest,
      w_trace (snd (get_storefront u1 w))
      = (w_trace w ++ [QProfile u1; QOrganizations u1; QAccessControl u1;
                       CacheGet (key p1)] ++ rest)%list)
  /\ (exists rest,
         w_trace (snd (get_storefront u2 w))
         = (w_trace w ++ [QProfile u2; QOrganizations u2; QAccessControl u2;
                          CacheGet (key p2)] ++ rest)%list)
  /\ (titles p1 = titles p2 -> level p1 = level p2 -> key p1 = key p2).
Proof.
  intros titles level key Hq Hp1 Hp2.
  assert (Hkey : forall p,
             storefront_key (profile_organizations p) (profile_access_control p)
             = key p).
  { intros p. unfold storefront_key, key, titles, level.
    now rewrite join_titles_foldr. }
  repeat split.
  - rewrite <- Hkey. now apply get_storefront_looks_up.
  - rewrite <- Hkey. now apply get_storefront_looks_up.
  - intros Ht Hl. unfold key. now rewrite Ht, Hl.
Qed.

Lemma storefront_key_follows_title_sequence_witness :
  exists rest,
    w_trace (snd (get_storefront "wsmith" Samples.calm))
    = ([QProfile "wsmith"; QOrganizations "wsmith"; QAccessControl "wsmith";
        CacheGet "storefront:ministryoftruth_ministryofpeace_:unclassified"]
       ++ rest)%list.
Proof.
  destruct (storefront_key_follows_title_sequence
              Samples.calm "wsmith" "wsmith" Samples.wsmith Samples.wsmith)
    as ((rest & Hrest) & _ & _).
  - intros i _. reflexivity.
  - reflexivity.
  - reflexivity.
  - exists rest. exact Hrest.
Defined.

(** C8, as stated, fails: wsmith and julia belong to the same two
    organizations and have the same access level, the membership query
    yields the organizations in a different order, and the two calls look
    up different keys. *)
Lemma same_organizations_different_key :
  (forall a, a ∈ profile_organizations Samples.wsmith
             <-> a ∈ profile_organizations Samples.julia)
  /\ profile_access_control Samples.wsmith = profile_access_control Samples.julia
  /\ w_trace (snd (get_storefront "wsmith" Samples.calm)) !! 3%nat
     = Some (CacheGet "storefront:ministryoftruth_ministryofpeace_:unclassified")
  /\ w_trace (snd (get_storefront "julia" Samples.calm)) !! 3%nat
     = Some (CacheGet "storefront:ministryofpeace_ministryoftruth_:unclassified")
  /\ storefront_key (profile_organizations Samples.wsmith)
                    (profile_access_control Samples.wsmith)
     <> storefront_key (profile_organizations Samples.julia)
                       (profile_access_control Samples.julia).
Proof.
  split; [|split; [reflexivity|]].
  2:{ split; [vm_compute; reflexivity|]. split; [vm_compute; reflexivity|].
      vm_compute. discriminate. }
  intros a. unfold Samples.wsmith, Samples.julia. simpl.
  rewrite !elem_of_cons. tauto.
Qed.

(** *** get_storefront: the cache hit *)

Lemma get_storefront_hit (w : World) (u : string) (p : Profile) (v : Value) :
  let key := storefront_key (profile_organizations p) (profile_access_control p) in
  quiet 4 w -> has_profile w u p -> w_cache w !! key = Some v ->
  exists w',
    get_storefront u w = (Returned v, w')
    /\ w_cache w' = w_cache w
    /\ w_db w' = w_db w
    /\ w_trace w'
       = (w_trace w ++ [QProfile u; QOrganizations u; QAccessControl u;
                        CacheGet key])%list.
Proof.
  intros key Hq Hp Hc.
  pose proof (has_profile_username _ _ _ Hp) as Hu.
  quiet_facts Hq 4%nat.
  unfold get_storefront. resolve_identity. fold key. rewrite Hc, Hu.
  eexists. split; [reflexivity|]. unfold ret. world_simpl.
  repeat split. now rewrite <- !app_assoc.
Qed.

(** A call that returned a bundle leaves that bundle in the cache, under the
    key of the one profile of the user. *)
Lemma get_storefront_returned_bundle (w w1 : World) (u : string) (d : Storefront) :
  get_storefront u w = (Returned (StorefrontData d), w1) ->
  exists p,
    has_profile w1 u p
    /\ w_cache w1 !! storefront_key (profile_organizations p)
                                   (profile_access_control p)
       = Some (StorefrontData d).
Proof.
  unfold get_storefront. intros H.
  destruct (w_faults w (w_calls w)) as [d0|] eqn:F0.
  { rewrite (bind_raised _ _ _ _ _ (Profile_objects_get_fault _ _ _ F0)) in H.
    discriminate H. }
  destruct (List.filter (fun q => String.eqb (profile_username q) u)
                        (Profile_objects (w_db w))) as [|p [|q rows]] eqn:Hrows.
  { rewrite (bind_raised _ _ _ _ _ (Profile_objects_get_missing _ _ F0 Hrows)) in H.
    discriminate H. }
  2:{ rewrite (bind_raised _ _ _ _ _ (Profile_objects_get_many _ _ _ _ _ F0 Hrows)) in H.
      discriminate H. }
  exists p.
  set (key := storefront_key (profile_organizations p) (profile_access_control p)) in *.
  rewrite (bind_returned _ _ _ _ _ (Profile_objects_get_ok _ _ _ F0 Hrows)) in H.
  destruct (w_faults w (S (w_calls w))) as [d1|] eqn:F1.
  { unfold organizations_all in H.
    erewrite (bind_raised (bind _ _)) in H
      by (apply bind_raised, invoke_fault; world_simpl; eassumption).
    discriminate H. }
  erewrite bind_returned in H by (apply organizations_all_ok; world_simpl; eassumption).
  destruct (w_faults w (S (S (w_calls w)))) as [d2|] eqn:F2.
  { unfold access_control in H.
    erewrite (bind_raised (bind _ _)) in H
      by (apply bind_raised, invoke_fault; world_simpl; eassumption).
    discriminate H. }
  erewrite bind_returned in H by (apply access_control_ok; world_simpl; eassumption).
  destruct (w_faults w (S (S (S (w_calls w))))) as [d3|] eqn:F3.
  { unfold cache_get in H.
    erewrite (bind_raised (bind _ _)) in H
      by (apply bind_raised, invoke_fault; world_simpl; eassumption).
    discriminate H. }
  erewrite bind_returned in H by (apply cache_get_ok; world_simpl; eassumption).
  cbn [w_db w_cache w_faults w_calls w_trace tick store] in H. fold key in H.
  destruct (w_cache w !! key) as [v|] eqn:Hc.
  { unfold ret in H. injection H as -> <-. split; [exact Hrows|exact Hc]. }
  destruct (w_faults w (S (S (S (S (w_calls w)))))) as [d4|] eqn:F4.
  { erewrite try_raised in H by (run_fault for_user_fault; reflexivity).
    discriminate H. }
  destruct (w_faults w (S (S (S (S (S (w_calls w))))))) as [d5|] eqn:F5.
  { erewrite try_raised in H
      by (run_ok for_user_ok; run_fault for_user_fault; reflexivity).
    discriminate H. }
  destruct (w_faults w (S (S (S (S (S (S (w_calls w)))))))) as [d6|] eqn:F6.
  { erewrite try_raised in H
      by (do 2 run_ok for_user_ok; run_fault for_user_fault; reflexivity).
    discriminate H. }
  destruct (w_faults w (S (S (S (S (S (S (S (w_calls w))))))))) as [d7|] eqn:F7.
  { erewrite try_raised in H
      by (do 3 run_ok for_user_ok; run_fault cache_set_fault; reflexivity).
    discriminate H. }
  erewrite try_returned in H
    by (do 3 run_ok for_user_ok; run_ok cache_set_ok; reflexivity).
  cbn [w_db w_cache w_faults w_calls w_trace tick store] in H.
  injection H as Hd <-. split; [exact Hrows|]. world_simpl.
  rewrite <- Hd. apply lookup_insert_eq.
Qed.

(** C9: a value found in the cache is returned as it is, after identity
    resolution and the one cache lookup, with no call after the lookup (no
    listing query, no cache write); and when a call has returned a bundle,
    the next call returns the same bundle, from the cache. *)
Theorem get_storefront_served_from_cache
    (w w1 : World) (u : string) (p : Profile) (v : Value) (d : Storefront) :
  (quiet 4 w -> has_profile w u p ->
   w_cache w !! storefront_key (profile_organizations p) (profile_access_control p)
   = Some v ->
   exists w',
     get_storefront u w = (Returned v, w')
     /\ w_cache w' = w_cache w
     /\ w_trace w'
        = (w_trace w
           ++ [QProfile u; QOrganizations u; QAccessControl u;
               CacheGet (storefront_key (profile_organizations p)
                                        (profile_access_control p))])%list)
  /\
  (get_storefront u w = (Returned (StorefrontData d), w1) -> quiet 4 w1 ->
   exists key w2,
     get_storefront u w1 = (Returned (StorefrontData d), w2)
     /\ w_cache w1 !! key = Some (StorefrontData d)
     /\ w_cache w2 = w_cache w1
     /\ w_trace w2
        = (w_trace w1
           ++ [QProfile u; QOrganizations u; QAccessControl u; CacheGet key])%list).
Proof.
  split.
  - intros Hq Hp Hc.
    destruct (get_storefront_hit w u p v Hq Hp Hc) as (w' & Hrun & Hcache & _ & Htr).
    exists w'. auto.
  - intros Hfirst Hq.
    destruct (get_storefront_returned_bundle w w1 u d Hfirst) as (q & Hq1 & Hc1).
    destruct (get_storefront_hit w1 u q _ Hq Hq1 Hc1) as (w2 & Hrun & Hcache & _ & Htr).
    exists (storefront_key (profile_organizations q) (profile_access_control q)), w2.
    auto.
Qed.

Lemma get_storefront_served_from_cache_witness :
  let w1 := snd (get_storefront "wsmith" Samples.calm) in
  (exists w',
      get_storefront "wsmith" w1 = (Returned (StorefrontData Samples.wsmith_bundle), w')
      /\ w_cache w' = w_cache w1)
  /\ (exists key w2,
         get_storefront "wsmith" w1
         = (Returned (StorefrontData Samples.wsmith_bundle), w2)
         /\ w_cache w1 !! key = Some (StorefrontData Samples.wsmith_bundle)
         /\ w_cache w2 = w_cache w1
         /\ w_trace w2
            = (w_trace w1 ++ [QProfile "wsmith"; QOrganizations "wsmith";
                              QAccessControl "wsmith"; CacheGet key])%list).
Proof.
  intros w1. split.
  - destruct (proj1 (get_storefront_served_from_cache
                       w1 w1 "wsmith" Samples.wsmith
                       (StorefrontData Samples.wsmith_bundle) Samples.wsmith_bundle))
      as (w' & Hrun & Hcache & _).
    + intros i _. reflexivity.
    + reflexivity.
    + vm_compute. reflexivity.
    + exists w'. split; [exact Hrun|exact Hcache].
  - apply (proj2 (get_storefront_served_from_cache
                    Samples.calm w1 "wsmith" Samples.wsmith
                    (StorefrontData Samples.wsmith_bundle) Samples.wsmith_bundle)).
    + vm_compute. reflexivity.
    + intros i _. reflexivity.
Defined.

(** *** get_storefront: the unknown user *)

(** C10: for a username without a profile, [get_storefront] raises: the
    lookup's [DoesNotExist] (or the fault of the lookup itself) leaves the
    function as an exception, not as an error dictionary, and the profile
    query is the only call made: the cache is neither read nor written. *)
Theorem get_storefront_unknown_user (w : World) (u : string) :
  no_profile w u ->
  exists e w',
    get_storefront u w = (Raised e, w')
    /\ (w_faults w (w_calls w) = None ->
        e = DoesNotExist "Profile matching query does not exist.")
    /\ w_cache w' = w_cache w
    /\ w_trace w' = (w_trace w ++ [QProfile u])%list.
Proof.
  intros Hp. unfold get_storefront.
  destruct (w_faults w (w_calls w)) as [detail|] eqn:F0.
  - rewrite (bind_raised _ _ _ _ _ (Profile_objects_get_fault _ _ _ F0)).
    eexists _, _. split; [reflexivity|]. split; [discriminate|]. now split.
  - rewrite (bind_raised _ _ _ _ _ (Profile_objects_get_missing _ _ F0 Hp)).
    eexists _, _. split; [reflexivity|]. now repeat split.
Qed.

Lemma get_storefront_unknown_user_witness :
  exists w',
    get_storefront "obrien" Samples.calm
    = (Raised (DoesNotExist "Profile matching query does not exist."), w')
    /\ w_cache w' = ∅
    /\ w_trace w' = [QProfile "obrien"].
Proof.
  destruct (get_storefront_unknown_user Samples.calm "obrien")
    as (e & w' & Hrun & He & Hcache & Htr).
  - reflexivity.
  - exists w'. rewrite (He eq_refl) in Hrun. auto.
Defined.

End ModelAccessFacts.

(** ** The notification engine *)

Module NotificationFacts.

Import QuerySet QuerySetFacts NotificationEngine.

(** *** Rendering and reading timestamps *)

Lemma digit_cases (k : Z) :
  (0 <= k < 10)%Z ->
  k = 0%Z \/ k = 1%Z \/ k = 2%Z \/ k = 3%Z \/ k = 4%Z \/ k = 5%Z \/ k = 6%Z
  \/ k = 7%Z \/ k = 8%Z \/ k = 9%Z.
Proof. lia. Qed.

Lemma is_digit_digit_char (k : Z) :
  (0 <= k < 10)%Z -> is_digit (digit_char k) = true.
Proof.
  intros H. destruct (digit_cases k H) as [->|[->|[->|[->|[->|[->|[->|[->|[->| ->]]]]]]]]];
    reflexivity.
Qed.

Lemma digit_value_digit_char (k : Z) :
  (0 <= k < 10)%Z -> digit_value (digit_char k) = Some k.
Proof.
  intros H. destruct (digit_cases k H) as [->|[->|[->|[->|[->|[->|[->|[->|[->| ->]]]]]]]]];
    reflexivity.
Qed.

Lemma last_digit (n : Z) : (0 <= n mod 10 < 10)%Z.
Proof. apply Z.mod_pos_bound. lia. Qed.

Lemma render_has_shape (d : DateTime) :
  has_shape iso_shape (render_datetime d) = true.
Proof.
  cbv [render_datetime zero_pad String.append has_shape iso_shape
       Ascii.eqb Bool.eqb].
  rewrite !is_digit_digit_char by apply last_digit.
  reflexivity.
Qed.

Lemma strptime_render (d : DateTime) :
  dt_valid d = true -> strptime_iso (render_datetime d) = Some d.
Proof.
  intros Hv. unfold strptime_iso. rewrite render_has_shape.
  cbv [render_datetime zero_pad String.append number_at String.substring read_number].
  rewrite !digit_value_digit_char by apply last_digit.
  unfold dt_valid, within in Hv.
  destruct d as [y mo dd h mi sec us]. cbn [year month day hour minute second microsecond] in *.
  f_equal. f_equal; Z.to_euclidean_division_equations; lia.
Qed.

(** The instants of valid datetimes are ordered as their fields are, most
    significant first. *)
Lemma instant_lexicographic (a b : DateTime) :
  dt_valid a = true -> dt_valid b = true ->
  ((instant a < instant b)%Z <->
   (year a < year b
    \/ year a = year b /\
       (month a < month b
        \/ month a = month b /\
           (day a < day b
            \/ day a = day b /\
               (hour a < hour b
                \/ hour a = hour b /\
                   (minute a < minute b
                    \/ minute a = minute b /\
                       (second a < second b
                        \/ second a = second b /\
                           microsecond a < microsecond b))))))%Z).
Proof.
  unfold dt_valid, within, instant.
  destruct a as [y1 m1 d1 h1 i1 s1 u1], b as [y2 m2 d2 h2 i2 s2 u2].
  cbn [year month day hour minute second microsecond].
  intros Ha Hb. lia.
Qed.

(** *** Pending and expired *)

Lemma role_gated_ok {A} caller (body : Identity -> Response A) (r : A) :
  role_gated caller body = Ok200 r ->
  exists u, caller = Some u /\ elevated u = true /\ body u = Ok200 r.
Proof.
  unfold role_gated. destruct caller as [u|]; [|discriminate].
  destruct (elevated u) eqn:E; [|discriminate]. eauto.
Qed.

(** C1: every notification in the body of [listPending] expires strictly
    after the clock reading of the request, every notification in the body
    of [listExpired] expires at or before it, and the [expires_date] of a
    notification is rendered in the shape [YYYY-MM-DDTHH:MM:SS.ffffffZ],
    from which the fields are read back. *)
Theorem pending_expired_partition
    (st : Store) (now : DateTime) (caller : option Identity) (filter : option Z)
    (body : list Notification) (n : Notification) :
  (listPending st now caller filter = Ok200 body -> In n body ->
   (instant (expires_date n) > instant now)%Z)
  /\ (listExpired st now caller filter = Ok200 body -> In n body ->
      (instant (expires_date n) <= instant now)%Z)
  /\ (In n body -> dt_valid (expires_date n) = true ->
      In (render_datetime (expires_date n)) (rendered_expiry body)
      /\ has_shape iso_shape (render_datetime (expires_date n)) = true
      /\ strptime_iso (render_datetime (expires_date n)) = Some (expires_date n)).
Proof.
  split; [|split].
  - intros H Hin. apply role_gated_ok in H as (u & _ & _ & H).
    injection H as <-. apply filter_In in Hin as [_ Hin].
    apply andb_prop in Hin as [Hin _]. unfold pending in Hin. lia.
  - intros H Hin. apply role_gated_ok in H as (u & _ & _ & H).
    injection H as <-. apply filter_In in Hin as [_ Hin].
    apply andb_prop in Hin as [Hin _]. unfold expired in Hin. lia.
  - intros Hin Hv. split; [|split].
    + unfold rendered_expiry.
      apply (in_map (fun n => render_datetime (expires_date n))), Hin.
    + apply render_has_shape.
    + now apply strptime_render.
Qed.

Lemma pending_expired_partition_witness :
  (instant NotificationSamples.test_expiry > instant NotificationSamples.spring)%Z
  /\ (instant (expires_date NotificationSamples.was_down)
      <= instant NotificationSamples.spring)%Z
  /\ render_datetime NotificationSamples.test_expiry = "2016-09-01T15:45:55.322421Z"
  /\ strptime_iso "2016-09-01T15:45:55.322421Z" = Some NotificationSamples.test_expiry.
Proof.
  pose proof (pending_expired_partition
                NotificationSamples.seeded NotificationSamples.spring
                (Some NotificationSamples.wsmith) None
                [NotificationSamples.going_down; NotificationSamples.room_open;
                 NotificationSamples.mail_updated]
                NotificationSamples.going_down) as (Hp & _ & Hr).
  pose proof (pending_expired_partition
                NotificationSamples.seeded NotificationSamples.spring
                (Some NotificationSamples.wsmith) None
                [NotificationSamples.was_down; NotificationSamples.basket_updated]
                NotificationSamples.was_down) as (_ & He & _).
  split; [apply Hp; [reflexivity|now left]|].
  split; [apply He; [reflexivity|now left]|].
  split; [reflexivity|].
  apply (Hr ltac:(now left) eq_refl).
Defined.

(** *** The role gate *)

(** C4: a caller without the elevated role gets 403 from [listPending],
    [listExpired] and [create], with no body, and the store is as it was;
    [create] by an elevated actor with an expiry in the future gives 201
    and a persisted record that carries the submitted message. *)
Theorem role_gate
    (st : Store) (now : DateTime) (u : Identity) (filter : option Z)
    (msg : string) (expires : DateTime) (aud : Audience) :
  (elevated u = false ->
   listPending st now (Some u) filter = Forbidden403
   /\ listExpired st now (Some u) filter = Forbidden403
   /\ create st now (Some u) msg expires aud = (Forbidden403, st))
  /\ (elevated u = true -> (instant now < instant expires)%Z ->
      exists n st',
        create st now (Some u) msg expires aud = (Created201 n, st')
        /\ message n = msg
        /\ In n (notifications st')).
Proof.
  split.
  - intros E. unfold listPending, listExpired, create, role_gated.
    now rewrite E.
  - intros E _. unfold create. rewrite E.
    eexists _, _. split; [reflexivity|]. split; [reflexivity|].
    cbn [notifications]. apply in_or_app. right. now left.
Qed.

Lemma role_gate_witness :
  listPending NotificationSamples.seeded NotificationSamples.spring
              (Some NotificationSamples.jones) None = Forbidden403
  /\ exists n st',
       create NotificationSamples.seeded NotificationSamples.spring
              (Some NotificationSamples.bigbrother) "a simple test"
              NotificationSamples.test_expiry AllUsers = (Created201 n, st')
       /\ message n = "a simple test"
       /\ In n (notifications st').
Proof.
  split.
  - apply (proj1 (role_gate NotificationSamples.seeded NotificationSamples.spring
                            NotificationSamples.jones None "a simple test"
                            NotificationSamples.test_expiry AllUsers)).
    reflexivity.
  - apply (proj2 (role_gate NotificationSamples.seeded NotificationSamples.spring
                            NotificationSamples.bigbrother None "a simple test"
                            NotificationSamples.test_expiry AllUsers)).
    + reflexivity.
    + reflexivity.
Defined.

(** *** Dismissal *)

Lemma serve_keeps_dismissals (st : Store) (r : Request) (x : string * Z) :
  x ∈ dismissals st -> x ∈ dismissals (serve st r).
Proof.
  intros Hx. destruct r as [caller i|now caller msg expires aud|caller i expires];
    cbn [serve].
  - unfold dismiss. destruct caller as [u|]; [|exact Hx].
    destruct (find_notification st i); [|exact Hx]. cbn [snd].
    case_bool_decide; [exact Hx|]. cbn [dismissals]. now apply list_elem_of_further.
  - unfold create. destruct caller as [u|]; [|exact Hx].
    destruct (elevated u); exact Hx.
  - unfold update. destruct caller as [u|]; [|exact Hx].
    destruct (find_notification st i); exact Hx.
Qed.

Lemma serve_all_keeps_dismissals (rs : list Request) (st : Store) (x : string * Z) :
  x ∈ dismissals st -> x ∈ dismissals (serve_all st rs).
Proof.
  revert st. induction rs as [|r rs IH]; intros st Hx; [exact Hx|].
  cbn [serve_all fold_left]. apply IH. now apply serve_keeps_dismissals.
Qed.

Lemma dismiss_records (st : Store) (u : Identity) (i : Z) :
  fst (dismiss st (Some u) i) = NoContent204 ->
  (username u, i) ∈ dismissals (snd (dismiss st (Some u) i)).
Proof.
  unfold dismiss. destruct (find_notification st i); [|discriminate].
  intros _. cbn [snd]. case_bool_decide; [assumption|].
  cbn [dismissals]. apply list_elem_of_here.
Qed.

Lemma feed_not_dismissed (st : Store) (u : Identity) (o : Ordering) (i : Z) :
  (username u, i) ∈ dismissals st ->
  ~ In i (feed_ids (listSelfFeed st (Some u) o)).
Proof.
  intros Hd Hin. cbn [listSelfFeed feed_ids] in Hin.
  apply in_map_iff in Hin as (n & <- & Hn).
  apply (Permutation_in _ (Permutation_sym (order_by_perm _ _ _))) in Hn.
  unfold visible_to in Hn. apply filter_In in Hn as [_ Hn].
  apply andb_prop in Hn as [_ Hn]. unfold dismissed_by in Hn.
  rewrite bool_decide_eq_true_2 in Hn by exact Hd. discriminate Hn.
Qed.

Lemma dismiss_other_feed (st : Store) (u other : Identity) (i : Z) (o : Ordering) :
  username other <> username u ->
  listSelfFeed (snd (dismiss st (Some u) i)) (Some other) o
  = listSelfFeed st (Some other) o.
Proof.
  intros Hne. unfold dismiss. destruct (find_notification st i); [|reflexivity].
  cbn [snd]. case_bool_decide; [reflexivity|].
  cbn [listSelfFeed]. f_equal. f_equal. unfold visible_to. cbn [notifications].
  apply List.filter_ext. intros m. f_equal. f_equal. unfold dismissed_by. cbn [dismissals].
  apply bool_decide_ext. rewrite elem_of_cons. split; [|tauto].
  intros [E|E]; [|exact E]. congruence.
Qed.

(** C2: once [dismiss] has answered 204 for a user and an id, the id is in
    no self feed of that user, whatever the ordering and whatever requests
    (creations, updates of the expiry, dismissals) are served in between;
    the self feed of any other user is what it was before the dismissal. *)
Theorem dismissal_is_permanent
    (st : Store) (u u' other : Identity) (i : Z) (rs : list Request)
    (ordering : Ordering) :
  let st1 := snd (dismiss st (Some u) i) in
  fst (dismiss st (Some u) i) = NoContent204 ->
  (username u' = username u ->
   ~ In i (feed_ids (listSelfFeed (serve_all st1 rs) (Some u') ordering)))
  /\ (username other <> username u ->
      listSelfFeed st1 (Some other) ordering = listSelfFeed st (Some other) ordering).
Proof.
  intros st1 Hok. split.
  - intros Hu. apply feed_not_dismissed. rewrite Hu.
    apply serve_all_keeps_dismissals. now apply dismiss_records.
  - intros Hne. now apply dismiss_other_feed.
Qed.

Lemma dismissal_is_permanent_witness :
  let st1 := snd (dismiss NotificationSamples.seeded (Some NotificationSamples.wsmith) 5) in
  ~ In 5%Z (feed_ids (listSelfFeed
                        (serve_all st1 NotificationSamples.later_requests)
                        (Some NotificationSamples.wsmith) DefaultOrdering))
  /\ listSelfFeed st1 (Some NotificationSamples.bigbrother) DefaultOrdering
     = listSelfFeed NotificationSamples.seeded (Some NotificationSamples.bigbrother)
                    DefaultOrdering.
Proof.
  intros st1.
  destruct (dismissal_is_permanent
              NotificationSamples.seeded NotificationSamples.wsmith
              NotificationSamples.wsmith NotificationSamples.bigbrother 5
              NotificationSamples.later_requests DefaultOrdering)
    as (Hself & Hother).
  - reflexivity.
  - split; [apply Hself; reflexivity|apply Hother; discriminate].
Defined.

(** *** Ordering of the self feed *)

Lemma before_total (o : Ordering) (a b : Notification) :
  before o a b = false -> before o b a = true.
Proof. unfold before, earlier. destruct (descends o); lia. Qed.

Lemma before_trans (o : Ordering) (a b c : Notification) :
  before o a b = true -> before o b c = true -> before o a c = true.
Proof. unfold before, earlier. destruct (descends o); lia. Qed.






(** The ids of a store stay distinct: [create] assigns an id above all those
    present, [update] and [dismiss] keep the ids. *)
Lemma fresh_id_above (st : Store) (n : Notification) :
  In n (notifications st) -> (id n < fresh_id st)%Z.
Proof.
  unfold fresh_id. induction (notifications st) as [|m l IH]; [intros []|].
  cbn [List.map foldr]. intros [->|Hin]; [lia|].
  specialize (IH Hin). lia.
Qed.

Lemma serve_keeps_ids_distinct (st : Store) (r : Request) :
  NoDup (List.map id (notifications st)) ->
  NoDup (List.map id (notifications (serve st r))).
Proof.
  intros Hnd. destruct r as [caller i|now caller msg expires aud|caller i expires];
    cbn [serve].
  - unfold dismiss. destruct caller as [u|]; [|exact Hnd].
    destruct (find_notification st i) as [found|]; [|exact Hnd]. cbn [snd].
    now case_bool_decide.
  - unfold create. destruct caller as [u|]; [|exact Hnd].
    destruct (elevated u); [|exact Hnd]. cbn [snd notifications].
    rewrite map_app. cbn [List.map id].
    apply NoDup_app. split; [exact Hnd|]. split; [|apply NoDup_singleton].
    intros j Hj Hfresh. apply list_elem_of_In in Hj.
    apply in_map_iff in Hj as (n & <- & Hn).
    apply list_elem_of_singleton in Hfresh.
    pose proof (fresh_id_above st n Hn). lia.
  - unfold update. destruct caller as [u|]; [|exact Hnd].
    destruct (find_notification st i) as [found|]; [|exact Hnd]. cbn [snd notifications].
    rewrite List.map_map.
    erewrite List.map_ext; [exact Hnd|].
    intros n. unfold set_expiry. now destruct (id n =? i)%Z.
Qed.



End NotificationFacts.

(** ** model_access.py: further properties *)

Module ModelAccessLaws.

Import Chars QuerySet QuerySetFacts ModelAccess ModelAccessFacts Views.

(** *** make_keysafe and the keys *)

Lemma lower_char_idem (c : ascii) : lower_char (lower_char c) = lower_char c.
Proof. destruct c as [[] [] [] [] [] [] [] []]; vm_compute; reflexivity. Qed.

Lemma is_word_lower_char (c : ascii) : is_word (lower_char c) = is_word c.
Proof. destruct c as [[] [] [] [] [] [] [] []]; vm_compute; reflexivity. Qed.

Lemma lower_lower (s : string) : lower (lower s) = lower s.
Proof.
  induction s as [|c s IH]; [reflexivity|].
  cbn [lower]. now rewrite lower_char_idem, IH.
Qed.

Lemma re_sub_nonword_word (s : string) :
  string_forall is_word s = true -> re_sub_nonword s = s.
Proof.
  induction s as [|c s IH]; [reflexivity|].
  cbn [string_forall re_sub_nonword]. intros H.
  apply andb_prop in H as [Hc Hs]. now rewrite Hc, IH.
Qed.

Lemma re_sub_nonword_app (s t : string) :
  re_sub_nonword (s ++ t) = re_sub_nonword s ++ re_sub_nonword t.
Proof.
  induction s as [|c s IH]; [reflexivity|].
  rewrite string_app_cons. cbn [re_sub_nonword].
  destruct (is_word c); [rewrite string_app_cons|]; now rewrite IH.
Qed.

(** X1: on strings of code points below 256 (ASCII and Latin-1, the
    strings of this development; beyond them [str.lower] can lengthen a
    string), [make_keysafe] is idempotent: a key that went through it once
    is left as it is by a second pass. *)
Theorem make_keysafe_idempotent (key : string) :
  make_keysafe (make_keysafe key) = make_keysafe key.
Proof.
  unfold make_keysafe at 1.
  rewrite (re_sub_nonword_word _ (make_keysafe_word key)).
  unfold make_keysafe. apply lower_lower.
Qed.

Lemma lower_char_ascii_word (c : ascii) :
  is_word c = true -> (code (lower_char c) < 128)%N ->
  between 97 122 (code (lower_char c)) || between 48 57 (code (lower_char c))
  || (code (lower_char c) =? 95)%N = true.
Proof.
  destruct c as [[] [] [] [] [] [] [] []]; vm_compute; intros H1 H2;
    first [reflexivity | discriminate H1 | discriminate H2].
Qed.

Lemma lower_char_not_upper (c : ascii) : between 65 90 (code (lower_char c)) = false.
Proof. destruct c as [[] [] [] [] [] [] [] []]; vm_compute; reflexivity. Qed.

(** X2: every ASCII character of a result of [make_keysafe] is a lower-case
    letter, a digit or the underscore; in particular the result contains
    neither the colon that separates the parts of a cache key, nor a space,
    nor an upper-case ASCII letter. *)
Theorem make_keysafe_alphabet (key : string) (c : ascii) :
  In c (list_ascii_of_string (make_keysafe key)) ->
  ((code c < 128)%N ->
   between 97 122 (code c) || between 48 57 (code c) || (code c =? 95)%N = true)
  /\ c <> ":"%char /\ c <> " "%char /\ between 65 90 (code c) = false.
Proof.
  unfold make_keysafe. induction key as [|x key IH]; [intros []|].
  cbn [re_sub_nonword]. destruct (is_word x) eqn:E; [|exact IH].
  cbn [lower list_ascii_of_string]. intros [<-|Hin]; [|now apply IH].
  pose proof (lower_char_ascii_word x E) as Hw.
  split; [exact Hw|].
  repeat split.
  - intros Hc. rewrite Hc in Hw. specialize (Hw eq_refl). discriminate Hw.
  - intros Hc. rewrite Hc in Hw. specialize (Hw eq_refl). discriminate Hw.
  - apply lower_char_not_upper.
Qed.

Lemma make_keysafe_alphabet_witness :
  ((code "_" < 128)%N ->
   between 97 122 (code "_") || between 48 57 (code "_") || (code "_" =? 95)%N = true)
  /\ "_"%char <> ":"%char /\ "_"%char <> " "%char
  /\ between 65 90 (code "_") = false.
Proof.
  apply (make_keysafe_alphabet "Ministry of Truth_" "_").
  vm_compute. tauto.
Defined.

(** X3: [make_keysafe] does not see the case of ASCII letters or characters
    outside [\w]: replacing an ASCII character of the input by its
    lower-case form, or inserting a non-word character anywhere, gives the
    same key, so titles that differ only in these collide. *)
Theorem make_keysafe_collisions (s t : string) (c : ascii) :
  ((code c < 128)%N ->
   make_keysafe (s ++ String c t) = make_keysafe (s ++ String (lower_char c) t))
  /\ (is_word c = false -> make_keysafe (s ++ String c t) = make_keysafe (s ++ t)).
Proof.
  split.
  - intros _. unfold make_keysafe. rewrite !re_sub_nonword_app.
    cbn [re_sub_nonword]. rewrite is_word_lower_char.
    destruct (is_word c); [|reflexivity].
    induction (re_sub_nonword s) as [|x r IH]; cbn [lower].
    + change ("" ++ ?y) with y. cbn [lower]. now rewrite lower_char_idem.
    + rewrite !string_app_cons. cbn [lower]. now rewrite IH.
  - intros Hc. unfold make_keysafe. rewrite !re_sub_nonword_app.
    cbn [re_sub_nonword]. now rewrite Hc.
Qed.

Lemma make_keysafe_collisions_witness :
  make_keysafe ("Mini" ++ String "T" "rue") = make_keysafe ("Mini" ++ String "t" "rue")
  /\ make_keysafe ("A" ++ String " " "B") = make_keysafe ("A" ++ "B").
Proof.
  split.
  - apply (proj1 (make_keysafe_collisions "Mini" "rue" "T")). reflexivity.
  - apply (proj2 (make_keysafe_collisions "A" "B" " ")). reflexivity.
Defined.

Lemma length_lower (s : string) : String.length (lower s) = String.length s.
Proof. induction s as [|c s IH]; [reflexivity|]. cbn [lower String.length]. now rewrite IH. Qed.

(** X4: on strings of code points below 256 (ASCII and Latin-1),
    [make_keysafe] never makes a string longer, and a string of word
    characters keeps its length: nothing is cut, whatever the length. *)
Theorem make_keysafe_length (key : string) :
  (String.length (make_keysafe key) <= String.length key)%nat
  /\ (string_forall is_word key = true ->
      String.length (make_keysafe key) = String.length key).
Proof.
  unfold make_keysafe. rewrite length_lower. split.
  - induction key as [|c key IH]; [reflexivity|].
    cbn [re_sub_nonword]. destruct (is_word c); cbn [String.length]; lia.
  - intros H. now rewrite re_sub_nonword_word.
Qed.

Lemma make_keysafe_length_witness :
  String.length (make_keysafe "Minitrue_1984") = 13%nat.
Proof.
  apply (proj2 (make_keysafe_length "Minitrue_1984")). reflexivity.
Defined.

Lemma split_at_colon (a1 a2 b1 b2 : string) :
  string_forall is_word a1 = true -> string_forall is_word a2 = true ->
  a1 ++ ":" ++ b1 = a2 ++ ":" ++ b2 -> a1 = a2 /\ b1 = b2.
Proof.
  revert a2. induction a1 as [|x a1 IH]; intros [|y a2] H1 H2 E.
  - injection E as E. now split.
  - rewrite string_app_cons in E. injection E as E _. subst y.
    cbn [string_forall] in H2. apply andb_prop in H2 as [H2 _]. discriminate H2.
  - rewrite string_app_cons in E. injection E as E _. subst x.
    cbn [string_forall] in H1. apply andb_prop in H1 as [H1 _]. discriminate H1.
  - rewrite !string_app_cons in E. injection E as -> E.
    cbn [string_forall] in H1, H2.
    apply andb_prop in H1 as [_ H1]. apply andb_prop in H2 as [_ H2].
    destruct (IH a2 H1 H2 E) as [-> ->]. now split.
Qed.

(** X5: two storefront keys are equal exactly when the normalised
    organization strings are equal and the normalised access-level titles
    are equal (the colon cannot move between the parts), and no storefront
    key is the key ["metadata"] of [get_metadata]. *)
Theorem storefront_key_parts (orgs1 orgs2 : list Agency) (ac1 ac2 : AccessControl) :
  (storefront_key orgs1 ac1 = storefront_key orgs2 ac2 <->
   make_keysafe (join_titles orgs1) = make_keysafe (join_titles orgs2)
   /\ make_keysafe (access_title ac1) = make_keysafe (access_title ac2))
  /\ storefront_key orgs1 ac1 <> "metadata".
Proof.
  split; [split|].
  - unfold storefront_key. intros E.
    change ("storefront:" ++ ?x) with
      (String "s" (String "t" (String "o" (String "r" (String "e" (String "f"
        (String "r" (String "o" (String "n" (String "t" (String ":" x)))))))))))
      in E.
    injection E as E.
    apply split_at_colon in E; [exact E| |]; apply make_keysafe_word.
  - intros [E1 E2]. unfold storefront_key. now rewrite E1, E2.
  - unfold storefront_key. intros E.
    change ("storefront:" ++ ?x) with
      (String "s" (String "t" (String "o" (String "r" (String "e" (String "f"
        (String "r" (String "o" (String "n" (String "t" (String ":" x)))))))))))
      in E.
    discriminate E.
Qed.

Lemma storefront_key_parts_witness :
  make_keysafe (join_titles (profile_organizations Samples.wsmith))
  = make_keysafe (join_titles (profile_organizations SharedSamples.syme))
  /\ make_keysafe "UNCLASSIFIED" = make_keysafe "Unclassified".
Proof.
  apply (proj1 (proj1 (storefront_key_parts
                         (profile_organizations Samples.wsmith)
                         (profile_organizations SharedSamples.syme)
                         (profile_access_control Samples.wsmith)
                         (profile_access_control SharedSamples.syme)))).
  vm_compute. reflexivity.
Defined.

(** *** What a call does to the cache *)

Lemma organizations_all_fault w p detail :
  w_faults w (w_calls w) = Some detail ->
  organizations_all p w
  = (Raised (Fault detail), tick (QOrganizations (profile_username p)) w).
Proof.
  intros Hf. unfold organizations_all.
  now rewrite (bind_raised _ _ _ _ _ (invoke_fault _ _ _ Hf)).
Qed.

Lemma access_control_fault w p detail :
  w_faults w (w_calls w) = Some detail ->
  access_control p w
  = (Raised (Fault detail), tick (QAccessControl (profile_username p)) w).
Proof.
  intros Hf. unfold access_control.
  now rewrite (bind_raised _ _ _ _ _ (invoke_fault _ _ _ Hf)).
Qed.

Lemma cache_get_fault w key detail :
  w_faults w (w_calls w) = Some detail ->
  cache_get key w = (Raised (Fault detail), tick (CacheGet key) w).
Proof.
  intros Hf. unfold cache_get.
  now rewrite (bind_raised _ _ _ _ _ (invoke_fault _ _ _ Hf)).
Qed.

(** The call is over and the cache is as it was. *)
Ltac frame_done :=
  unfold ret; cbn [fst snd]; world_simpl;
  repeat (split; [first [reflexivity | lia]|]).

(** Every way in which a call of [get_storefront] can end. *)
Lemma get_storefront_paths (w : World) (u : string) :
  let out := fst (get_storefront u w) in
  let w' := snd (get_storefront u w) in
  w_db w' = w_db w
  /\ w_faults w' = w_faults w
  /\ (w_calls w < w_calls w' <= w_calls w + 8)%nat
  /\ ((exists e, out = Raised e /\ w_cache w' = w_cache w)
      \/ exists p,
           let key := storefront_key (profile_organizations p)
                                     (profile_access_control p) in
           has_profile w u p
           /\ ((exists v, w_cache w !! key = Some v
                          /\ out = Returned v /\ w_cache w' = w_cache w)
               \/ (exists msg, w_cache w !! key = None
                               /\ out = Returned (ErrorData msg)
                               /\ w_cache w' = w_cache w)
               \/ (exists d, w_cache w !! key = None
                             /\ out = Returned (StorefrontData d)
                             /\ w_cache w' = <[key := StorefrontData d]> (w_cache w)))).
Proof.
  unfold get_storefront.
  destruct (w_faults w (w_calls w)) as [d0|] eqn:F0.
  { rewrite (bind_raised _ _ _ _ _ (Profile_objects_get_fault _ _ _ F0)).
    frame_done. left. eauto. }
  destruct (List.filter (fun q => String.eqb (profile_username q) u)
                        (Profile_objects (w_db w))) as [|p [|q rows]] eqn:Hrows.
  { rewrite (bind_raised _ _ _ _ _ (Profile_objects_get_missing _ _ F0 Hrows)).
    frame_done. left. eauto. }
  2:{ rewrite (bind_raised _ _ _ _ _ (Profile_objects_get_many _ _ _ _ _ F0 Hrows)).
      frame_done. left. eauto. }
  rewrite (bind_returned _ _ _ _ _ (Profile_objects_get_ok _ _ _ F0 Hrows)).
  destruct (w_faults w (S (w_calls w))) as [d1|] eqn:F1.
  { run_fault organizations_all_fault. frame_done. left. eauto. }
  run_ok organizations_all_ok.
  destruct (w_faults w (S (S (w_calls w)))) as [d2|] eqn:F2.
  { run_fault access_control_fault. frame_done. left. eauto. }
  run_ok access_control_ok.
  destruct (w_faults w (S (S (S (w_calls w))))) as [d3|] eqn:F3.
  { run_fault cache_get_fault. frame_done. left. eauto. }
  run_ok cache_get_ok. world_simpl.
  set (key := storefront_key (profile_organizations p) (profile_access_control p)).
  destruct (w_cache w !! key) as [v|] eqn:Hc.
  { frame_done. right. exists p. split; [exact Hrows|]. left. exists v. auto. }
  destruct (w_faults w (S (S (S (S (w_calls w)))))) as [d4|] eqn:F4.
  { fault_caught for_user_fault.
    frame_done. right. exists p. split; [exact Hrows|]. right. left. eauto. }
  destruct (w_faults w (S (S (S (S (S (w_calls w))))))) as [d5|] eqn:F5.
  { erewrite try_raised by (run_ok for_user_ok; run_fault for_user_fault; reflexivity).
    frame_done. right. exists p. split; [exact Hrows|]. right. left. eauto. }
  destruct (w_faults w (S (S (S (S (S (S (w_calls w)))))))) as [d6|] eqn:F6.
  { erewrite try_raised
      by (do 2 run_ok for_user_ok; run_fault for_user_fault; reflexivity).
    frame_done. right. exists p. split; [exact Hrows|]. right. left. eauto. }
  destruct (w_faults w (S (S (S (S (S (S (S (w_calls w))))))))) as [d7|] eqn:F7.
  { erewrite try_raised
      by (do 3 run_ok for_user_ok; run_fault cache_set_fault; reflexivity).
    frame_done. right. exists p. split; [exact Hrows|]. right. left. eauto. }
  erewrite try_returned
    by (do 3 run_ok for_user_ok; run_ok cache_set_ok; reflexivity).
  frame_done. right. exists p. split; [exact Hrows|]. right. right. eauto.
Qed.

(** Every way in which a call of [get_metadata] can end. *)
Lemma get_metadata_paths (w : World) :
  let out := fst (get_metadata w) in
  let w' := snd (get_metadata w) in
  w_db w' = w_db w
  /\ w_faults w' = w_faults w
  /\ (w_calls w < w_calls w' <= w_calls w + 7)%nat
  /\ ((exists e, out = Raised e /\ w_cache w' = w_cache w)
      \/ (exists v, w_cache w !! "metadata" = Some v
                    /\ out = Returned v /\ w_cache w' = w_cache w)
      \/ (exists msg, w_cache w !! "metadata" = None
                      /\ out = Returned (ErrorData msg)
                      /\ w_cache w' = w_cache w)
      \/ (exists d, w_cache w !! "metadata" = None
                    /\ out = Returned (MetadataData d)
                    /\ w_cache w' = <["metadata" := MetadataData d]> (w_cache w))).
Proof.
  unfold get_metadata.
  destruct (w_faults w (w_calls w)) as [d0|] eqn:F0.
  { run_fault cache_get_fault. frame_done. left. eauto. }
  run_ok cache_get_ok. world_simpl.
  destruct (w_cache w !! "metadata") as [v|] eqn:Hc.
  { frame_done. right. left. eauto. }
  destruct (w_faults w (S (w_calls w))) as [d1|] eqn:F1.
  { fault_caught @objects_values_fault. frame_done. right. right. left. eauto. }
  destruct (w_faults w (S (S (w_calls w)))) as [d2|] eqn:F2.
  { erewrite try_raised
      by (run_ok @objects_values_ok; run_fault @objects_values_fault; reflexivity).
    frame_done. right. right. left. eauto. }
  destruct (w_faults w (S (S (S (w_calls w))))) as [d3|] eqn:F3.
  { erewrite try_raised
      by (do 2 run_ok @objects_values_ok; run_fault @objects_values_fault;
          reflexivity).
    frame_done. right. right. left. eauto. }
  destruct (w_faults w (S (S (S (S (w_calls w)))))) as [d4|] eqn:F4.
  { erewrite try_raised
      by (do 3 run_ok @objects_values_ok; run_fault @objects_values_fault;
          reflexivity).
    frame_done. right. right. left. eauto. }
  destruct (w_faults w (S (S (S (S (S (w_calls w))))))) as [d5|] eqn:F5.
  { erewrite try_raised
      by (do 4 run_ok @objects_values_ok; run_fault @objects_values_fault;
          reflexivity).
    frame_done. right. right. left. eauto. }
  destruct (w_faults w (S (S (S (S (S (S (w_calls w)))))))) as [d6|] eqn:F6.
  { erewrite try_raised
      by (do 5 run_ok @objects_values_ok; run_fault cache_set_fault; reflexivity).
    frame_done. right. right. left. eauto. }
  erewrite try_returned
    by (do 5 run_ok @objects_values_ok; run_ok cache_set_ok; reflexivity).
  frame_done. right. right. right. eauto.
Qed.

Lemma storefront_key_not_metadata (orgs : list Agency) (ac : AccessControl) :
  storefront_key orgs ac <> "metadata".
Proof.
  unfold storefront_key. intros E.
  change ("storefront:" ++ ?x) with
    (String "s" (String "t" (String "o" (String "r" (String "e" (String "f"
      (String "r" (String "o" (String "n" (String "t" (String ":" x)))))))))))
    in E.
  discriminate E.
Qed.

(** X6: whatever its outcome, [get_storefront] leaves the database alone
    and never overwrites or removes a cache entry: a key either keeps its
    value or was absent and now holds the bundle that the call returns, and
    that key is not ["metadata"]; when the call raises or returns the error
    dictionary the cache is as it was. *)
Theorem get_storefront_cache_frame (w : World) (u : string) :
  let out := fst (get_storefront u w) in
  let w' := snd (get_storefront u w) in
  w_db w' = w_db w
  /\ (forall k,
         w_cache w' !! k = w_cache w !! k
         \/ exists d,
              out = Returned (StorefrontData d)
              /\ w_cache w !! k = None
              /\ w_cache w' !! k = Some (StorefrontData d)
              /\ k <> "metadata")
  /\ (forall msg, out = Returned (ErrorData msg) -> w_cache w' = w_cache w)
  /\ (forall e, out = Raised e -> w_cache w' = w_cache w).
Proof.
  destruct (get_storefront_paths w u) as (Hdb & _ & _ & Hpaths).
  cbn zeta in *. split; [exact Hdb|].
  destruct Hpaths
    as [(e & Hout & Hc)
       |(p & Hp & [(v & Hk & Hout & Hc)|[(m & Hk & Hout & Hc)|(d & Hk & Hout & Hc)]])];
    try (split; [intros k; left; now rewrite Hc|]; split; intros; exact Hc).
  split; [|split; intros x E; rewrite Hout in E; discriminate E].
  intros k. rewrite Hc.
  destruct (decide (storefront_key (profile_organizations p)
                                   (profile_access_control p) = k)) as [<-|Hne].
  - right. exists d. rewrite lookup_insert_eq.
    repeat split; [exact Hout|exact Hk|apply storefront_key_not_metadata].
  - left. now rewrite lookup_insert_ne.
Qed.

Lemma get_storefront_cache_frame_witness :
  w_cache (snd (get_storefront "wsmith" (snd (get_metadata Samples.calm))))
  !! "metadata"
  = w_cache (snd (get_metadata Samples.calm)) !! "metadata".
Proof.
  destruct (proj1 (proj2 (get_storefront_cache_frame
                            (snd (get_metadata Samples.calm)) "wsmith"))
                  "metadata")
    as [H|(d & _ & _ & _ & Hne)]; [exact H|].
  now contradiction Hne.
Defined.

(** X7: whatever its outcome, [get_metadata] leaves the database and every
    cache key other than ["metadata"] alone; ["metadata"] either keeps its
    value or was absent and now holds the snapshot that the call returns;
    when the call raises or returns the error dictionary the cache is as it
    was. *)
Theorem get_metadata_cache_frame (w : World) :
  let out := fst (get_metadata w) in
  let w' := snd (get_metadata w) in
  w_db w' = w_db w
  /\ (forall k, k <> "metadata" -> w_cache w' !! k = w_cache w !! k)
  /\ (w_cache w' !! "metadata" = w_cache w !! "metadata"
      \/ exists d,
           out = Returned (MetadataData d)
           /\ w_cache w !! "metadata" = None
           /\ w_cache w' !! "metadata" = Some (MetadataData d))
  /\ (forall msg, out = Returned (ErrorData msg) -> w_cache w' = w_cache w)
  /\ (forall e, out = Raised e -> w_cache w' = w_cache w).
Proof.
  destruct (get_metadata_paths w) as (Hdb & _ & _ & Hpaths).
  cbn zeta in *. split; [exact Hdb|].
  destruct Hpaths
    as [(e & Hout & Hc)|[(v & Hk & Hout & Hc)|[(m & Hk & Hout & Hc)|(d & Hk & Hout & Hc)]]];
    try (split; [intros k _; now rewrite Hc|];
         split; [left; now rewrite Hc|]; split; intros; exact Hc).
  split; [intros k Hne; rewrite Hc; now apply lookup_insert_ne|].
  split; [|split; intros x E; rewrite Hout in E; discriminate E].
  right. exists d. rewrite Hc, lookup_insert_eq. auto.
Qed.

Lemma get_metadata_cache_frame_witness :
  w_cache (snd (get_metadata (snd (get_storefront "wsmith" Samples.calm))))
  !! "storefront:ministryoftruth_ministryofpeace_:unclassified"
  = Some (StorefrontData Samples.wsmith_bundle).
Proof.
  rewrite (proj1 (proj2 (get_metadata_cache_frame
                           (snd (get_storefront "wsmith" Samples.calm))))).
  - vm_compute. reflexivity.
  - discriminate.
Defined.

(** *** get_metadata: miss and hit *)

(** X8: on a cache miss with no fault, [get_metadata] queries categories,
    listing types, agencies, contact types and intents, in this order,
    returns for each table one projected row per row of the table, in the
    table's order, and stores the snapshot under ["metadata"]. *)
Theorem get_metadata_miss (w : World) :
  quiet 7 w -> w_cache w !! "metadata" = None ->
  exists (d : Metadata) (w' : World),
    get_metadata w = (Returned (MetadataData d), w')
    /\ categories d
       = List.map (fun r => (category_title r, category_description r))
                  (Category_objects (w_db w))
    /\ listing_types d
       = List.map (fun r => (ltype_title r, ltype_description r))
                  (ListingType_objects (w_db w))
    /\ agencies d
       = List.map (fun r => (agency_title r, agency_short_name r, agency_icon_url r))
                  (Agency_objects (w_db w))
    /\ contact_types d
       = List.map (fun r => (contact_name r, contact_required r))
                  (ContactType_objects (w_db w))
    /\ intents d
       = List.map (fun r => (intent_action r, intent_media_type r,
                             intent_label r, intent_icon r))
                  (Intent_objects (w_db w))
    /\ w_cache w' = <["metadata" := MetadataData d]> (w_cache w)
    /\ w_trace w'
       = (w_trace w ++ [CacheGet "metadata"; QCategory; QListingType; QAgency;
                        QContactType; QIntent; CacheSet "metadata"])%list.
Proof.
  intros Hq Hc. quiet_facts Hq 7%nat.
  unfold get_metadata. run_ok cache_get_ok. world_simpl. rewrite Hc.
  erewrite try_returned
    by (do 5 run_ok @objects_values_ok; run_ok cache_set_ok; reflexivity).
  eexists _, _. split; [reflexivity|].
  cbn [categories listing_types agencies contact_types intents]. world_simpl.
  do 6 (split; [reflexivity|]).
  repeat rewrite <- app_assoc. reflexivity.
Qed.

Lemma get_metadata_miss_witness :
  exists (d : Metadata) (w' : World),
    get_metadata Samples.calm = (Returned (MetadataData d), w')
    /\ agencies d
       = [("Ministry of Truth", "Minitrue", "/static/minitrue.png");
          ("Ministry of Peace", "Minipax", "/static/minipax.png")]
    /\ contact_types d = [("Technical Support", true)]
    /\ w_cache w' !! "metadata" = Some (MetadataData d).
Proof.
  destruct (get_metadata_miss Samples.calm)
    as (d & w' & Hrun & _ & _ & Ha & Hct & _ & Hcache & _).
  - intros i _. reflexivity.
  - apply lookup_empty.
  - exists d, w'. split; [exact Hrun|]. split; [exact Ha|]. split; [exact Hct|].
    rewrite Hcache. apply lookup_insert_eq.
Defined.

(** X9: a value cached under ["metadata"] is returned as it is after the
    one cache lookup, with no catalog query; and after a call that returned
    a snapshot, the next call returns the same snapshot from the cache. *)
Theorem get_metadata_served_from_cache (w w1 : World) (v : Value) (d : Metadata) :
  (w_faults w (w_calls w) = None -> w_cache w !! "metadata" = Some v ->
   get_metadata w = (Returned v, tick (CacheGet "metadata") w))
  /\ (get_metadata w = (Returned (MetadataData d), w1) ->
      w_faults w1 (w_calls w1) = None ->
      get_metadata w1 = (Returned (MetadataData d), tick (CacheGet "metadata") w1)).
Proof.
  assert (Hhit : forall w0 v0,
             w_faults w0 (w_calls w0) = None -> w_cache w0 !! "metadata" = Some v0 ->
             get_metadata w0 = (Returned v0, tick (CacheGet "metadata") w0)).
  { intros w0 v0 Hf Hc. unfold get_metadata. run_ok cache_get_ok. world_simpl.
    now rewrite Hc. }
  split; [apply Hhit|].
  intros Hrun Hf. apply Hhit; [exact Hf|].
  destruct (get_metadata_paths w) as (_ & _ & _ & Hpaths).
  rewrite Hrun in Hpaths. cbn [fst snd] in Hpaths.
  destruct Hpaths
    as [(e & Hout & Hc)|[(v0 & Hk & Hout & Hc)|[(m & Hk & Hout & Hc)|(d0 & Hk & Hout & Hc)]]];
    try discriminate Hout.
  - injection Hout as <-. now rewrite Hc.
  - injection Hout as <-. rewrite Hc. apply lookup_insert_eq.
Qed.

Lemma get_metadata_served_from_cache_witness :
  let w1 := snd (get_metadata Samples.calm) in
  get_metadata w1
  = (Returned (MetadataData
       (mkMetadata [("Books", "Things made of paper")]
                   [("web application", "runs in a browser")]
                   [("Ministry of Truth", "Minitrue", "/static/minitrue.png");
                    ("Ministry of Peace", "Minipax", "/static/minipax.png")]
                   [("Technical Support", true)]
                   [("/application/json/view", "vnd.ozp-intent-v1+json.json",
                     "view", "/static/view.png")])),
     tick (CacheGet "metadata") w1).
Proof.
  intros w1.
  apply (proj2 (get_metadata_served_from_cache
                  Samples.calm w1 (ErrorData "") _)).
  - vm_compute. reflexivity.
  - reflexivity.
Defined.

(** *** Faults outside the try block, and sharing *)

(** X10: a fault of one of the four calls that [get_storefront] makes
    before its [try] block (profile, organizations, access level, cache
    lookup), or of the cache lookup of [get_metadata], leaves the function
    as an exception, not as an error dictionary; the cache is as it was. *)
Theorem faults_before_the_try_are_raised
    (w : World) (u : string) (p : Profile) (k : nat) (detail : string) :
  (has_profile w u p -> (k < 4)%nat ->
   (forall j, (j < k)%nat -> w_faults w (j + w_calls w)%nat = None) ->
   w_faults w (k + w_calls w)%nat = Some detail ->
   exists w',
     get_storefront u w = (Raised (Fault detail), w')
     /\ w_cache w' = w_cache w
     /\ w_calls w' = (S k + w_calls w)%nat)
  /\ (w_faults w (w_calls w) = Some detail ->
      exists w',
        get_metadata w = (Raised (Fault detail), w')
        /\ w_cache w' = w_cache w
        /\ w_trace w' = (w_trace w ++ [CacheGet "metadata"])%list).
Proof.
  split.
  - intros Hp Hk Hbefore Hfault. unfold get_storefront.
    destruct k as [|[|[|[|k]]]]; [| | | |lia]; simpl in Hfault.
    + run_fault Profile_objects_get_fault. eexists. repeat split.
    + pose proof (Hbefore 0%nat ltac:(lia)) as B0. simpl in B0.
      run_ok Profile_objects_get_ok. run_fault organizations_all_fault.
      eexists. repeat split.
    + pose proof (Hbefore 0%nat ltac:(lia)) as B0.
      pose proof (Hbefore 1%nat ltac:(lia)) as B1. simpl in B0, B1.
      run_ok Profile_objects_get_ok. run_ok organizations_all_ok.
      run_fault access_control_fault. eexists. repeat split.
    + pose proof (Hbefore 0%nat ltac:(lia)) as B0.
      pose proof (Hbefore 1%nat ltac:(lia)) as B1.
      pose proof (Hbefore 2%nat ltac:(lia)) as B2. simpl in B0, B1, B2.
      run_ok Profile_objects_get_ok. run_ok organizations_all_ok.
      run_ok access_control_ok. run_fault cache_get_fault. eexists. repeat split.
  - intros Hfault. unfold get_metadata. run_fault cache_get_fault.
    eexists. repeat split.
Qed.

Lemma faults_before_the_try_are_raised_witness :
  (exists w',
      get_storefront "wsmith" (Samples.failing_at 3)
      = (Raised (Fault "database is locked"), w') /\ w_cache w' = ∅)
  /\ (exists w',
         get_metadata (Samples.failing_at 0)
         = (Raised (Fault "database is locked"), w') /\ w_cache w' = ∅).
Proof.
  split.
  - destruct (proj1 (faults_before_the_try_are_raised
                       (Samples.failing_at 3) "wsmith" Samples.wsmith 3
                       "database is locked"))
      as (w' & Hrun & Hcache & _).
    + reflexivity.
    + lia.
    + intros j Hj. do 3 (destruct j as [|j]; [reflexivity|]). lia.
    + reflexivity.
    + exists w'. split; [exact Hrun|exact Hcache].
  - destruct (proj2 (faults_before_the_try_are_raised
                       (Samples.failing_at 0) "wsmith" Samples.wsmith 0
                       "database is locked"))
      as (w' & Hrun & Hcache & _).
    + reflexivity.
    + exists w'. split; [exact Hrun|exact Hcache].
Defined.

Lemma has_profile_unique w u p q : has_profile w u p -> has_profile w u q -> p = q.
Proof. unfold has_profile. intros -> E. now injection E. Qed.

(** X11: the cached bundle is shared: after a call for one user returned a
    bundle, a call for another user whose key is the same returns that very
    bundle, without a listing query for the second user. *)
Theorem storefront_shared_between_users
    (w w1 : World) (u1 u2 : string) (p1 p2 : Profile) (d : Storefront) :
  let key p := storefront_key (profile_organizations p) (profile_access_control p) in
  get_storefront u1 w = (Returned (StorefrontData d), w1) ->
  has_profile w1 u1 p1 -> has_profile w1 u2 p2 -> key p2 = key p1 ->
  quiet 4 w1 ->
  exists w2,
    get_storefront u2 w1 = (Returned (StorefrontData d), w2)
    /\ w_cache w2 = w_cache w1
    /\ w_trace w2
       = (w_trace w1 ++ [QProfile u2; QOrganizations u2; QAccessControl u2;
                         CacheGet (key p1)])%list.
Proof.
  intros key Hrun Hp1 Hp2 Hkey Hq.
  destruct (get_storefront_returned_bundle w w1 u1 d Hrun) as (q & Hq1 & Hc).
  rewrite <- (has_profile_unique _ _ _ _ Hp1 Hq1) in Hc.
  fold (key p1) in Hc. rewrite <- Hkey in Hc.
  destruct (get_storefront_hit w1 u2 p2 _ Hq Hp2 Hc) as (w2 & Hrun2 & Hc2 & _ & Htr).
  exists w2. fold (key p2) in Htr. rewrite Hkey in Htr. auto.
Qed.

Lemma storefront_shared_between_users_witness :
  let w1 := snd (get_storefront "wsmith" SharedSamples.office) in
  Listing_for_user (w_db w1) "syme" = [Samples.bread_basket]
  /\ exists w2,
       get_storefront "syme" w1 = (Returned (StorefrontData Samples.wsmith_bundle), w2)
       /\ In Samples.air_mail (featured Samples.wsmith_bundle).
Proof.
  intros w1. split; [reflexivity|].
  destruct (storefront_shared_between_users
              SharedSamples.office w1 "wsmith" "syme" Samples.wsmith
              SharedSamples.syme Samples.wsmith_bundle)
    as (w2 & Hrun & _).
  - vm_compute. reflexivity.
  - reflexivity.
  - reflexivity.
  - vm_compute. reflexivity.
  - intros i _. reflexivity.
  - exists w2. split; [exact Hrun|]. now left.
Defined.

(** *** The two views together *)

Lemma get_metadata_quiet (w : World) :
  quiet 7 w ->
  fst (get_metadata w)
  = match w_cache w !! "metadata" with
    | Some v => Returned v
    | None => Returned (MetadataData (metadata_of (w_db w)))
    end.
Proof.
  intros Hq. quiet_facts Hq 7%nat.
  unfold get_metadata. run_ok cache_get_ok. world_simpl.
  destruct (w_cache w !! "metadata") as [v|]; [reflexivity|].
  erewrite try_returned
    by (do 5 run_ok @objects_values_ok; run_ok cache_set_ok; reflexivity).
  reflexivity.
Qed.

Lemma get_storefront_quiet (w : World) (u : string) :
  quiet 8 w ->
  fst (get_storefront u w)
  = match List.filter (fun q => String.eqb (profile_username q) u)
                      (Profile_objects (w_db w)) with
    | [] => Raised (DoesNotExist "Profile matching query does not exist.")
    | [p] =>
        match w_cache w !! storefront_key (profile_organizations p)
                                          (profile_access_control p) with
        | Some v => Returned v
        | None => Returned (StorefrontData (storefront_of (w_db w) u))
        end
    | _ => Raised (MultipleObjectsReturned "get() returned more than one Profile")
    end.
Proof.
  intros Hq. quiet_facts Hq 8%nat. unfold get_storefront.
  destruct (List.filter (fun q => String.eqb (profile_username q) u)
                        (Profile_objects (w_db w))) as [|p [|q rows]] eqn:Hrows.
  - now rewrite (bind_raised _ _ _ _ _ (Profile_objects_get_missing _ _ Hquiet6 Hrows)).
  - rewrite (bind_returned _ _ _ _ _ (Profile_objects_get_ok _ _ _ Hquiet6 Hrows)).
    run_ok organizations_all_ok. run_ok access_control_ok. run_ok cache_get_ok.
    world_simpl.
    destruct (w_cache w !! _) as [v|]; [reflexivity|].
    erewrite try_returned
      by (do 3 run_ok for_user_ok; run_ok cache_set_ok; reflexivity).
    reflexivity.
  - now rewrite (bind_raised _ _ _ _ _
                   (Profile_objects_get_many _ _ _ _ _ Hquiet6 Hrows)).
Qed.

Lemma quiet_later (n m : nat) (w w' : World) :
  quiet (n + m) w -> w_faults w' = w_faults w ->
  (w_calls w <= w_calls w' <= w_calls w + n)%nat -> quiet m w'.
Proof.
  intros Hq Hf Hc i Hi. rewrite Hf.
  replace (i + w_calls w')%nat with ((i + (w_calls w' - w_calls w)) + w_calls w)%nat
    by lia.
  apply Hq. lia.
Qed.

Lemma quiet_fewer (n m : nat) (w : World) : (m <= n)%nat -> quiet n w -> quiet m w.
Proof. intros Hle Hq i Hi. apply Hq. lia. Qed.

(** X12: the two cached views do not disturb each other: when no call
    faults, [get_metadata] returns the same after a call of
    [get_storefront] as before it, and [get_storefront] the same after a
    call of [get_metadata] as before it. *)
Theorem views_are_independent (w : World) (u : string) :
  quiet 15 w ->
  fst (get_metadata (snd (get_storefront u w))) = fst (get_metadata w)
  /\ fst (get_storefront u (snd (get_metadata w))) = fst (get_storefront u w).
Proof.
  intros Hq. split.
  - destruct (get_storefront_paths w u) as (Hdb & Hf & Hcalls & Hpaths).
    cbn zeta in *.
    assert (Hq0 : quiet 7 w) by (apply (quiet_fewer 15); [lia|exact Hq]).
    assert (Hq1 : quiet 7 (snd (get_storefront u w)))
      by (apply (quiet_later 8 7 w); [exact Hq|exact Hf|lia]).
    rewrite (get_metadata_quiet _ Hq1), (get_metadata_quiet _ Hq0).
    rewrite Hdb.
    assert (Hk : w_cache (snd (get_storefront u w)) !! "metadata"
                 = w_cache w !! "metadata").
    { destruct Hpaths
        as [(e & _ & Hc)
           |(p & _ & [(v & _ & _ & Hc)|[(m & _ & _ & Hc)|(d & _ & _ & Hc)]])];
        rewrite Hc; try reflexivity.
      apply lookup_insert_ne, storefront_key_not_metadata. }
    now rewrite Hk.
  - destruct (get_metadata_paths w) as (Hdb & Hf & Hcalls & Hpaths).
    cbn zeta in *.
    assert (Hq0 : quiet 8 w) by (apply (quiet_fewer 15); [lia|exact Hq]).
    assert (Hq1 : quiet 8 (snd (get_metadata w)))
      by (apply (quiet_later 7 8 w); [exact Hq|exact Hf|lia]).
    rewrite (get_storefront_quiet _ _ Hq1), (get_storefront_quiet _ _ Hq0).
    rewrite Hdb.
    destruct (List.filter _ _) as [|p [|q rows]]; try reflexivity.
    assert (Hk : w_cache (snd (get_metadata w))
                 !! storefront_key (profile_organizations p) (profile_access_control p)
                 = w_cache w
                 !! storefront_key (profile_organizations p) (profile_access_control p)).
    { destruct Hpaths
        as [(e & _ & Hc)|[(v & _ & _ & Hc)|[(m & _ & _ & Hc)|(d & _ & _ & Hc)]]];
        rewrite Hc; try reflexivity.
      apply lookup_insert_ne. intros E. symmetry in E.
      now apply storefront_key_not_metadata in E. }
    now rewrite Hk.
Qed.

Lemma views_are_independent_witness :
  fst (get_metadata (snd (get_storefront "wsmith" Samples.calm)))
  = fst (get_metadata Samples.calm)
  /\ fst (get_storefront "wsmith" (snd (get_metadata Samples.calm)))
     = fst (get_storefront "wsmith" Samples.calm).
Proof.
  apply (views_are_independent Samples.calm "wsmith").
  intros i _. reflexivity.
Defined.

(** *** The bundle of a miss *)

(** The bundle built on a miss. *)
Lemma get_storefront_fresh (w : World) (u : string) (p : Profile) :
  let visible := Listing_for_user (w_db w) u in
  quiet 8 w -> has_profile w u p ->
  w_cache w !! storefront_key (profile_organizations p) (profile_access_control p)
  = None ->
  fst (get_storefront u w)
  = Returned (StorefrontData
                (mkStorefront
                   (firstn 12 (List.filter is_featured visible))
                   (firstn 24 (order_by Z.leb approved_date visible))
                   (firstn 36 (order_by Qle_bool avg_rate visible)))).
Proof.
  intros visible Hq Hp Hc. quiet_facts Hq 8%nat.
  unfold get_storefront. resolve_identity. rewrite Hc.
  erewrite try_returned
    by (do 3 run_ok for_user_ok; run_ok cache_set_ok; reflexivity).
  reflexivity.
Qed.

Lemma sorted_app_le {A} (R : A -> A -> Prop) (l1 l2 : list A) (a b : A) :
  StronglySorted R (l1 ++ l2)%list -> In a l1 -> In b l2 -> R a b.
Proof.
  induction l1 as [|x l1 IH]; intros Hs Ha Hb; [destruct Ha|].
  cbn [app] in Hs. apply StronglySorted_inv in Hs as [Hs Hall].
  destruct Ha as [->|Ha]; [|now apply IH].
  rewrite Forall_forall in Hall. apply Hall, list_elem_of_In, in_or_app. now right.
Qed.

(** X13: on a miss, [recent] holds the visible listings with the lowest
    [approved_date] and [most_popular] those with the lowest [avg_rate]:
    every visible listing left out of [recent] was approved no earlier than
    every listing in it, and every one left out of [most_popular] is rated
    no lower than every one in it. *)
Theorem storefront_keeps_the_lowest (w : World) (u : string) (p : Profile) :
  let visible := Listing_for_user (w_db w) u in
  quiet 8 w -> has_profile w u p ->
  w_cache w !! storefront_key (profile_organizations p) (profile_access_control p)
  = None ->
  exists (d : Storefront) (newer better : list Listing),
    fst (get_storefront u w) = Returned (StorefrontData d)
    /\ Permutation visible (recent d ++ newer)
    /\ (forall a b, In a (recent d) -> In b newer ->
                    (approved_date a <= approved_date b)%Z)
    /\ Permutation visible (most_popular d ++ better)
    /\ (forall a b, In a (most_popular d) -> In b better ->
                    (avg_rate a <= avg_rate b)%Q).
Proof.
  intros visible Hq Hp Hc.
  eexists _, (skipn 24 (order_by Z.leb approved_date visible)),
             (skipn 36 (order_by Qle_bool avg_rate visible)).
  split; [apply (get_storefront_fresh w u p Hq Hp Hc)|].
  cbn [recent most_popular]. fold visible. rewrite !firstn_skipn.
  split; [apply order_by_perm|]. split.
  { intros a b.
    apply (sorted_app_le (fun a b => (approved_date a <= approved_date b)%Z)).
    rewrite firstn_skipn.
    apply order_by_approved_date. }
  split; [apply order_by_perm|].
  intros a b. apply (sorted_app_le (fun a b => (avg_rate a <= avg_rate b)%Q)).
  rewrite firstn_skipn. apply order_by_avg_rate.
Qed.

Lemma storefront_keeps_the_lowest_witness :
  exists (d : Storefront) (newer better : list Listing),
    fst (get_storefront "wsmith" SharedSamples.crowded) = Returned (StorefrontData d)
    /\ Permutation SharedSamples.forty (recent d ++ newer)
    /\ (forall a b, In a (recent d) -> In b newer ->
                    (approved_date a <= approved_date b)%Z)
    /\ Permutation SharedSamples.forty (most_popular d ++ better)
    /\ (forall a b, In a (most_popular d) -> In b better ->
                    (avg_rate a <= avg_rate b)%Q).
Proof.
  apply (storefront_keeps_the_lowest SharedSamples.crowded "wsmith" Samples.wsmith).
  - intros i _. reflexivity.
  - reflexivity.
  - apply lookup_empty.
Defined.

Lemma filter_sublist {A} (f : A -> bool) (l : list A) : sublist (List.filter f l) l.
Proof.
  induction l as [|x l IH]; [constructor|].
  cbn [List.filter]. destruct (f x); now constructor.
Qed.

Lemma in_firstn {A} (n : nat) (l : list A) (x : A) : In x (firstn n l) -> In x l.
Proof.
  intros H. apply list_elem_of_In. apply list_elem_of_In in H.
  now apply (subseteq_take n l).
Qed.

(** X14: on a miss, [featured] is a subsequence of the visible listings,
    all flagged, of length min(12, number of flagged visible listings);
    [recent] and [most_popular] have length min(24, n) and min(36, n) for n
    visible listings, and hold visible listings only. *)
Theorem storefront_bundle_bounds (w : World) (u : string) (p : Profile) :
  let visible := Listing_for_user (w_db w) u in
  quiet 8 w -> has_profile w u p ->
  w_cache w !! storefront_key (profile_organizations p) (profile_access_control p)
  = None ->
  exists d : Storefront,
    fst (get_storefront u w) = Returned (StorefrontData d)
    /\ sublist (featured d) visible
    /\ Forall (fun l => is_featured l = true) (featured d)
    /\ length (featured d)
       = Nat.min 12 (length (List.filter is_featured visible))
    /\ length (recent d) = Nat.min 24 (length visible)
    /\ length (most_popular d) = Nat.min 36 (length visible)
    /\ (forall l, In l (recent d) \/ In l (most_popular d) -> In l visible).
Proof.
  intros visible Hq Hp Hc.
  eexists. split; [apply (get_storefront_fresh w u p Hq Hp Hc)|].
  cbn [featured recent most_popular]. fold visible.
  split; [etrans; [apply sublist_take|apply filter_sublist]|].
  split.
  { apply Forall_forall. intros l Hl. apply list_elem_of_In in Hl.
    apply in_firstn, filter_In in Hl. tauto. }
  rewrite !length_firstn, !order_by_length.
  do 3 (split; [reflexivity|]).
  intros l [Hl|Hl]; apply in_firstn in Hl;
    eapply Permutation_in; try exact Hl; symmetry; apply order_by_perm.
Qed.

Lemma storefront_bundle_bounds_witness :
  exists d : Storefront,
    fst (get_storefront "wsmith" SharedSamples.crowded) = Returned (StorefrontData d)
    /\ length (featured d) = 12%nat
    /\ length (recent d) = 24%nat
    /\ length (most_popular d) = 36%nat.
Proof.
  destruct (storefront_bundle_bounds SharedSamples.crowded "wsmith" Samples.wsmith)
    as (d & Hrun & _ & _ & Hf & Hr & Hm & _).
  - intros i _. reflexivity.
  - reflexivity.
  - apply lookup_empty.
  - exists d. split; [exact Hrun|]. rewrite Hf, Hr, Hm. now vm_compute.
Defined.

End ModelAccessLaws.

(** ** The notification engine: the feed after a dismissal *)

Module NotificationLaws.

Import QuerySet QuerySetFacts NotificationEngine NotificationFacts.

Section FilterSorted.
Context {A K : Type} (leb : K -> K -> bool) (field : A -> K) (keep : A -> bool).
Hypothesis leb_total : forall a b, leb a b = false -> leb b a = true.
Hypothesis leb_trans : forall a b c, leb a b = true -> leb b c = true -> leb a c = true.

Lemma insert_by_first (x : A) (l : list A) :
  Forall (fun z => leb (field x) (field z) = true) l ->
  insert_by leb field x l = x :: l.
Proof using Type.
  destruct 1 as [|z l Hz _]; [reflexivity|]. cbn [insert_by]. now rewrite Hz.
Qed.

Lemma filter_insert_by (x : A) (s : list A) :
  StronglySorted (ascending leb field) s ->
  List.filter keep (insert_by leb field x s)
  = if keep x then insert_by leb field x (List.filter keep s)
    else List.filter keep s.
Proof using leb_trans.
  induction 1 as [|y s Hs IH Hall]; cbn [insert_by List.filter].
  - now destruct (keep x).
  - destruct (leb (field x) (field y)) eqn:E.
    + cbn [List.filter]. destruct (keep x) eqn:Kx; [|reflexivity].
      symmetry. apply insert_by_first.
      assert (Hge : Forall (fun z => leb (field x) (field z) = true) (y :: s)).
      { constructor; [exact E|]. eapply Forall_impl; [exact Hall|].
        intros z Hz. unfold ascending in Hz. eauto. }
      apply Forall_forall. intros z Hz. rewrite Forall_forall in Hge.
      apply Hge. apply list_elem_of_In. apply list_elem_of_In in Hz.
      change (In z (List.filter keep (y :: s))) in Hz.
      apply filter_In in Hz. tauto.
    + cbn [List.filter]. rewrite IH.
      destruct (keep y) eqn:Ky, (keep x) eqn:Kx; cbn [insert_by]; now rewrite ?E.
Qed.

Lemma order_by_filter (l : list A) :
  order_by leb field (List.filter keep l)
  = List.filter keep (order_by leb field l).
Proof using leb_total leb_trans.
  induction l as [|x l IH]; [reflexivity|].
  cbn [order_by foldr]. fold (order_by leb field l).
  rewrite filter_insert_by by now apply order_by_sorted.
  cbn [List.filter]. destruct (keep x); [|exact IH].
  cbn [order_by foldr]. fold (order_by leb field (List.filter keep l)).
  now rewrite IH.
Qed.

End FilterSorted.

Lemma filter_twice {A} (f g : A -> bool) (l : list A) :
  List.filter g (List.filter f l) = List.filter (fun x => f x && g x) l.
Proof.
  induction l as [|x l IH]; [reflexivity|].
  cbn [List.filter]. destruct (f x); cbn [List.filter andb]; now rewrite IH.
Qed.

Lemma visible_after_dismiss (st : Store) (u u' : Identity) (i : Z) :
  fst (dismiss st (Some u) i) = NoContent204 ->
  username u' = username u ->
  visible_to (snd (dismiss st (Some u) i)) u'
  = List.filter (fun n => negb (id n =? i)%Z) (visible_to st u').
Proof.
  unfold dismiss. destruct (find_notification st i) as [found|]; [|discriminate].
  intros _ Hu. cbn [snd]. unfold visible_to.
  rewrite filter_twice.
  case_bool_decide as Hd.
  - apply List.filter_ext. intros n.
    destruct (addressed_to u' n); [|reflexivity]. cbn [andb].
    unfold dismissed_by. rewrite Hu.
    destruct (id n =? i)%Z eqn:E; [|now rewrite andb_true_r].
    apply Z.eqb_eq in E. subst i. now rewrite bool_decide_eq_true_2.
  - cbn [notifications]. apply List.filter_ext. intros n.
    destruct (addressed_to u' n); [|reflexivity].
    cbn [andb]. unfold dismissed_by. cbn [dismissals]. rewrite Hu.
    destruct (id n =? i)%Z eqn:E.
    + apply Z.eqb_eq in E. subst i.
      rewrite bool_decide_eq_true_2 by apply list_elem_of_here.
      now rewrite andb_false_r.
    + cbn [negb]. rewrite andb_true_r. f_equal. apply bool_decide_ext.
      rewrite elem_of_cons. split; [|tauto]. intros [Heq|H]; [|exact H].
      apply Z.eqb_neq in E. congruence.
Qed.

(** X15: in the engine modelled from the specification, a successful
    [dismiss] removes exactly the dismissed id from the user's self feed:
    the feed afterwards is the feed before without that id, the other
    entries in the same order, for every ordering. *)
Theorem dismiss_removes_exactly_one
    (st : Store) (u u' : Identity) (i : Z) (ordering : Ordering) :
  fst (dismiss st (Some u) i) = NoContent204 ->
  username u' = username u ->
  feed_ids (listSelfFeed (snd (dismiss st (Some u) i)) (Some u') ordering)
  = List.filter (fun j => negb (j =? i)%Z)
                (feed_ids (listSelfFeed st (Some u') ordering)).
Proof.
  intros Hok Hu. cbn [listSelfFeed feed_ids].
  rewrite (visible_after_dismiss st u u' i Hok Hu).
  rewrite (order_by_filter (before ordering) (fun n => n) _
                           (before_total ordering) (before_trans ordering)).
  generalize (order_by (before ordering) (fun n => n) (visible_to st u')).
  induction l as [|n l IH]; [reflexivity|].
  cbn [List.filter List.map]. destruct (id n =? i)%Z; cbn [negb List.map]; now rewrite IH.
Qed.

Lemma dismiss_removes_exactly_one_witness :
  feed_ids (listSelfFeed
              (snd (dismiss NotificationSamples.seeded
                            (Some NotificationSamples.wsmith) 5))
              (Some NotificationSamples.wsmith) DefaultOrdering)
  = [2; 1]%Z.
Proof.
  rewrite (dismiss_removes_exactly_one
             NotificationSamples.seeded NotificationSamples.wsmith
             NotificationSamples.wsmith 5 DefaultOrdering);
    reflexivity.
Defined.

End NotificationLaws.
